(** * text-merger: a shallow embedding of [text_merger.py]

    The program unpacks a zip archive into a scratch directory, walks the
    extracted tree and writes one markdown document with a section per file
    that could be converted (jupytext, pandoc) or read as text.

    Conventions of the embedding.
    - A Python [str] is a Rocq [string]: the bytes of its UTF-8 encoding,
      which is what a file opened with [encoding='utf-8'] holds.
      [str.lower] follows the Unicode tables of the interpreter and is a
      field of [World].
    - A [pathlib] path is the list of its components below the root.
    - Everything the program asks of its environment (subprocesses, [PATH],
      the archive reader, the scratch directory) is a field of [World].
    - [print] and the writes to the output file are events of a trace;
      exceptions are the [Raise] result.  The output file is taken to be
      writable and the standard output to take every line: opening the
      output file, writing to it and [print] do not raise here. *)

From Stdlib Require Import List Bool Arith NArith ZArith Lia.
From Stdlib Require Import Strings.String Strings.Ascii Strings.Byte.
From Stdlib Require Import Numbers.DecimalString.
Import ListNotations.

Local Open Scope string_scope.
Local Open Scope list_scope.

(* ================================================================== *)
(** ** Python strings *)

Module PyStr.

(** The line feed, written [\n] in the source. *)
Definition nl : string := String (ascii_of_nat 10) EmptyString.

Definition is_upper (c : ascii) : bool :=
  let n := nat_of_ascii c in (65 <=? n)%nat && (n <=? 90)%nat.

Definition lower_char (c : ascii) : ascii :=
  if is_upper c then ascii_of_nat (nat_of_ascii c + 32) else c.

(** [str.lower()] of a string of ASCII characters.  The case tables of
    Unicode are not written out here: the program's calls of
    [str.lower] go to the [str_lower] field of [World], and the sample
    environments, whose file names are ASCII, take this function. *)
Fixpoint lower_ascii (s : string) : string :=
  match s with
  | EmptyString => EmptyString
  | String c s' => String (lower_char c) (lower_ascii s')
  end.

(** [s.rfind(c)]: the highest index of [c] in [s], or [-1]. *)
Fixpoint rfind (c : ascii) (s : string) : Z :=
  match s with
  | EmptyString => (-1)%Z
  | String a s' =>
      let r := rfind c s' in
      if (0 <=? r)%Z then (r + 1)%Z
      else if Ascii.eqb a c then 0%Z else (-1)%Z
  end.

(** [s[i:]] for [0 <= i]. *)
Definition slice_from (i : Z) (s : string) : string :=
  substring (Z.to_nat i) (String.length s - Z.to_nat i) s.

(** [x in {...}] on a set literal of strings. *)
Definition mem (x : string) (l : list string) : bool :=
  existsb (String.eqb x) l.

(** [sep.join(l)] *)
Definition join (sep : string) (l : list string) : string := String.concat sep l.

(** [str(n)] for a non-negative integer. *)
Definition of_N (n : N) : string := NilEmpty.string_of_uint (N.to_uint n).

End PyStr.

(* ================================================================== *)
(** ** Pure paths *)

Module PurePath.

(** An absolute or a relative path, as its components. *)
Definition t := list string.

(** [p.name] *)
Definition name (p : t) : string := last p EmptyString.

(** [p.suffix]: the part of the name from its last dot, when that dot is
    neither the first nor the last character of the name. *)
Definition suffix_of_name (n : string) : string :=
  let i := PyStr.rfind "."%char n in
  if ((0 <? i) && (i <? Z.of_nat (String.length n) - 1))%Z
  then PyStr.slice_from i n
  else EmptyString.

Definition suffix (p : t) : string := suffix_of_name (name p).

(** [p / child] *)
Definition child (p : t) (c : string) : t := p ++ [c].

(** [p.parent] *)
Definition parent (p : t) : t := removelast p.

(** [p.with_name(n)]; a path without a name (the root) has none to
    replace and [ValueError] is raised, here [None]. *)
Definition with_name (p : t) (n : string) : option t :=
  match p with
  | [] => None
  | _ => Some (removelast p ++ [n])
  end.

(** [p.relative_to(base)]; [None] is the [ValueError] raised when [base]
    is not a prefix of [p]. *)
Fixpoint relative_to (p base : t) {struct base} : option t :=
  match base with
  | [] => Some p
  | b :: base' =>
      match p with
      | [] => None
      | c :: p' => if String.eqb c b then relative_to p' base' else None
      end
  end.

(** [str(p)] of an absolute path. *)
Definition str_abs (p : t) : string := "/" ++ PyStr.join "/" p.

(** [str(p)] of a relative path. *)
Definition str_rel (p : t) : string :=
  match p with
  | [] => "."
  | _ => PyStr.join "/" p
  end.

End PurePath.

(* ================================================================== *)
(** ** Exceptions and results *)

(** The exceptions the program meets.  All of them are subclasses of
    Python's [Exception]; [OtherException] stands for any other one. *)
Inductive exn : Type :=
| CalledProcessError (msg : string)
| BadZipFile (msg : string)
| UnicodeDecodeError (msg : string)
| OSError (msg : string)
| ValueError (msg : string)
| OtherException (msg : string).

(** [str(e)] *)
Definition exn_str (e : exn) : string :=
  match e with
  | CalledProcessError m | BadZipFile m | UnicodeDecodeError m
  | OSError m | ValueError m | OtherException m => m
  end.

(** A call either returns a value or raises. *)
Inductive Result (A : Type) : Type :=
| Return (a : A)
| Raise (e : exn).
Arguments Return {A} a.
Arguments Raise {A} e.

Definition rbind {A B : Type} (r : Result A) (k : A -> Result B) : Result B :=
  match r with
  | Return a => k a
  | Raise e => Raise e
  end.

Declare Scope result_scope.
Delimit Scope result_scope with result.
Notation "x <- r ;; k" := (rbind r (fun x => k))
  (at level 61, r at next level, right associativity) : result_scope.
Notation "' pat <- r ;; k" := (rbind r (fun x => match x with pat => k end))
  (at level 61, pat pattern, r at next level, right associativity) : result_scope.

Definition raises {A : Type} (r : Result A) : bool :=
  match r with Return _ => false | Raise _ => true end.

(* ================================================================== *)
(** ** The UTF-8 codec

    The decoder of [encoding='utf-8'], as an automaton fed one byte at a
    time; its state is the bytes of a sequence begun and not yet
    complete.  A decoded character is kept as the bytes of its encoding. *)

Module Utf8.

Local Open Scope N_scope.

(** One character of a [str]. *)
Definition uchar := string.

Inductive errors := Strict | Replace.

(** U+FFFD, the replacement character. *)
Definition REPLACEMENT : uchar :=
  string_of_list_byte [xef; xbf; xbd]%byte.

Definition is_continuation (b : N) : bool := (0x80 <=? b) && (b <? 0xC0).

(** May [b] follow the bytes [seq] of a sequence begun?  After the lead
    byte the second byte is restricted, so that overlong forms,
    surrogates and values past U+10FFFF are never decoded. *)
Definition accepts (seq : list byte) (b : byte) : bool :=
  let n := Byte.to_N b in
  match seq with
  | [l] =>
      let ch := Byte.to_N l in
      if ch <? 0xE0 then is_continuation n
      else if ch <? 0xF0 then
        is_continuation n && negb (if n <? 0xA0 then ch =? 0xE0 else ch =? 0xED)
      else
        is_continuation n && negb (if n <? 0x90 then ch =? 0xF0 else ch =? 0xF4)
  | _ => is_continuation n
  end.

(** Length of the sequence a lead byte begins. *)
Definition seq_len (l : byte) : nat :=
  let ch := Byte.to_N l in
  if ch <? 0xE0 then 2%nat else if ch <? 0xF0 then 3%nat else 4%nat.

(** What a step yields: a character, or an undecodable span. *)
Inductive out := Emit (c : uchar) | Bad.

(** A byte met with no sequence pending. *)
Definition start (b : byte) : list out * list byte :=
  let n := Byte.to_N b in
  if n <? 0x80 then ([Emit (string_of_list_byte [b])], [])
  else if (0xC2 <=? n) && (n <? 0xF5) then ([], [b])
  else ([Bad], []).

(** A surrogate begun: [ED] followed by a byte of [A0..BF].  No third
    byte completes it, yet the decoder of a call that is not final keeps
    the pair pending when the input ends with it, and refuses it only
    when the next byte or the end of the data comes. *)
Definition surrogate_begun (seq : list byte) : bool :=
  match seq with
  | [l; b] =>
      (Byte.to_N l =? 0xED) && (0xA0 <=? Byte.to_N b) && (Byte.to_N b <? 0xC0)
  | _ => false
  end.

(** A byte met with [pending] begun.  A byte that cannot continue the
    sequence ends it as undecodable and is then looked at afresh; after
    a surrogate begun both pending bytes are undecodable, each on its
    own. *)
Definition feed (pending : list byte) (b : byte) : list out * list byte :=
  match pending with
  | [] => start b
  | l :: _ =>
      if surrogate_begun pending then
        let (o, p) := start b in (Bad :: Bad :: o, p)
      else if accepts pending b then
        let seq := (pending ++ [b])%list in
        if (List.length seq =? seq_len l)%nat
        then ([Emit (string_of_list_byte seq)], [])
        else ([], seq)
      else if surrogate_begun (pending ++ [b]) then
        ([], (pending ++ [b])%list)
      else
        let (o, p) := start b in (Bad :: o, p)
  end.

(** What the bytes left pending are at the end of the data: one
    undecodable span, or two for a surrogate begun. *)
Definition flush (pending : list byte) : list out :=
  match pending with
  | [] => []
  | _ => if surrogate_begun pending then [Bad; Bad] else [Bad]
  end.

(** The error handler: [strict] raises, [replace] puts U+FFFD. *)
Definition handle (mode : errors) (o : out) : Result uchar :=
  match o with
  | Emit c => Return c
  | Bad =>
      match mode with
      | Strict => Raise (UnicodeDecodeError "'utf-8' codec can't decode bytes")
      | Replace => Return REPLACEMENT
      end
  end.

Fixpoint handle_all (mode : errors) (os : list out) : Result (list uchar) :=
  match os with
  | [] => Return []
  | o :: os' =>
      (c <- handle mode o ;; cs <- handle_all mode os' ;; Return (c :: cs))%result
  end.

(** Feed a run of bytes; returns the characters and the bytes pending. *)
Fixpoint feed_all (mode : errors) (pending : list byte) (bs : list byte)
  : Result (list uchar * list byte) :=
  match bs with
  | [] => Return ([], pending)
  | b :: bs' =>
      let (os, p) := feed pending b in
      (cs <- handle_all mode os ;;
       '(cs', p') <- feed_all mode p bs' ;;
       Return ((cs ++ cs')%list, p'))%result
  end.

(** [decoder.decode(input, final)] of the incremental decoder: with
    [final] what is left pending is undecodable. *)
Definition decode (mode : errors) (pending : list byte) (input : list byte)
           (final : bool) : Result (list uchar * list byte) :=
  ('(cs, p) <- feed_all mode pending input ;;
   if final then
     (cs' <- handle_all mode (flush p) ;; Return ((cs ++ cs')%list, []))
   else Return (cs, p))%result.

(** [bytes.decode('utf-8')] succeeds. *)
Definition valid (bs : list byte) : bool :=
  negb (raises (decode Strict [] bs true)).

End Utf8.

(* ================================================================== *)
(** ** Text-mode reading

    [open(path, 'r', encoding='utf-8', errors=...)] gives a text reader
    ([io.TextIOWrapper]) over the file's bytes.  To serve [read(size)] it
    asks the buffer for a chunk of 8192 bytes, decodes the whole chunk
    with the incremental decoder and translates its line ends
    ([newline=None]), and goes on while it has fewer than [size]
    characters; an empty chunk is the end of the file and makes the
    decoder finish.  So a byte that does not decode raises as soon as the
    chunk it lies in is read, wherever in the chunk it lies; only a
    sequence cut by the end of the chunk, a surrogate begun among them,
    waits for the next chunk or the end of the file. *)

Module TextIO.

Import Utf8.

(** The reader's chunk size, in bytes. *)
Definition CHUNK_SIZE : nat := N.to_nat 8192.

Definition CR : uchar := String (ascii_of_nat 13) EmptyString.
Definition LF : uchar := String (ascii_of_nat 10) EmptyString.

(** State between chunks: the bytes of an incomplete sequence and
    whether a carriage return is held back. *)
Record decoder := { pending : list byte; pendingcr : bool }.

Definition initial : decoder := {| pending := []; pendingcr := false |}.

(** [output.replace("\r\n", "\n").replace("\r", "\n")] *)
Fixpoint translate (cs : list uchar) : list uchar :=
  match cs with
  | [] => []
  | c :: cs' =>
      if String.eqb c CR then
        LF :: match cs' with
              | d :: cs'' => if String.eqb d LF then translate cs'' else translate cs'
              | [] => []
              end
      else c :: translate cs'
  end.

Definition ends_with_cr (cs : list uchar) : bool :=
  match cs with
  | [] => false
  | _ => String.eqb (last cs EmptyString) CR
  end.

Definition nonempty {A : Type} (l : list A) : bool :=
  match l with [] => false | _ => true end.

(** The line-end translating decoder's [decode(input, final)]: a
    trailing carriage return is held back until the next call. *)
Definition decode (mode : errors) (st : decoder) (input : list byte)
           (final : bool) : Result (list uchar * decoder) :=
  ('(output, p) <- Utf8.decode mode (pending st) input final ;;
   let '(output, cr) :=
     if pendingcr st && (nonempty output || final)
     then (CR :: output, false) else (output, pendingcr st) in
   let '(output, cr) :=
     if ends_with_cr output && negb final
     then (removelast output, true) else (output, cr) in
   Return (translate output, {| pending := p; pendingcr := cr |}))%result.

(** The successive results of [buffer.read1(CHUNK_SIZE)] on a regular
    file, before the empty one that marks its end. *)
Fixpoint chunks (fuel : nat) (bs : list byte) : list (list byte) :=
  match fuel with
  | O => []
  | S fuel' =>
      match bs with
      | [] => []
      | _ => firstn CHUNK_SIZE bs :: chunks fuel' (skipn CHUNK_SIZE bs)
      end
  end.

Definition stream (bs : list byte) : list (list byte) :=
  chunks (List.length bs) bs.

(** [f.read(size)]: chunks are read and decoded until [size] characters
    are at hand or the file has ended. *)
Fixpoint read_loop (mode : errors) (size : nat) (st : decoder)
         (result : list uchar) (input : list (list byte)) : Result (list uchar) :=
  if (size <=? List.length result)%nat then Return (firstn size result)
  else
    match input with
    | [] =>
        ('(cs, _) <- decode mode st [] true ;;
         Return (firstn size (result ++ cs)))%result
    | chunk :: input' =>
        match decode mode st chunk false with
        | Return (cs, st') => read_loop mode size st' (result ++ cs) input'
        | Raise e => Raise e
        end
    end.

Definition read (mode : errors) (size : nat) (bs : list byte) : Result string :=
  (cs <- read_loop mode size initial [] (stream bs) ;;
   Return (String.concat EmptyString cs))%result.

(** [f.read()]: the whole file is decoded at once. *)
Definition read_all (mode : errors) (bs : list byte) : Result string :=
  ('(cs, _) <- decode mode initial bs true ;;
   Return (String.concat EmptyString cs))%result.

End TextIO.

(* ================================================================== *)
(** ** The environment *)

(** A file of the scratch directory: its bytes, and the [OSError] that
    [open] raises on it, if any. *)
Record FileData := {
  f_bytes : list byte;
  f_open_error : option string
}.

(** An extracted directory: its files and its subdirectories, each in
    the order the operating system lists them. *)
Unset Elimination Schemes.
Inductive Tree : Type :=
| Dir (files : list (string * FileData)) (dirs : list (string * Tree)).
Set Elimination Schemes.

Record World := {
  (** [s.lower()], by the case tables of the interpreter *)
  str_lower : string -> string;
  (** [sys.executable] *)
  sys_executable : string;
  (** [subprocess.run(cmd, capture_output=True, check=True, ...)]: the
      captured standard output, or what the call raises
      ([CalledProcessError] on a non-zero exit). *)
  subprocess_run : list string -> Result string;
  (** [shutil.which(name)] *)
  which : string -> option string;
  (** [Path(p).resolve()] *)
  resolve : string -> PurePath.t;
  (** [p.exists()] *)
  path_exists : PurePath.t -> bool;
  (** the directory [tempfile.TemporaryDirectory()] makes *)
  temp_dir : PurePath.t;
  (** [zipfile.ZipFile(zip_path, 'r')] and [extractall(temp_dir)]: what
      lies under [temp_dir] afterwards, or what the reader raises
      ([BadZipFile] when the file is not a zip archive). *)
  extractall : PurePath.t -> Result Tree
}.

(* ================================================================== *)
(** ** The output document and the trace of a run *)

Inductive SectionKind := Converted | Plain.

(** What one pass of the loop body writes to the output file. *)
Record Section := {
  sec_kind : SectionKind;
  sec_path : string;        (* [relative_path] *)
  sec_size : N;             (* [file_path.stat().st_size] *)
  sec_ext : string;         (* [file_path.suffix] *)
  sec_content : string
}.

(** The text of the eight [outfile.write] calls of a section. *)
Definition render_section (s : Section) : string :=
  let nl := PyStr.nl in
  "## File: " ++ sec_path s
    ++ match sec_kind s with Converted => " (Converted)" | Plain => EmptyString end ++ nl
  ++ "- **Size**: " ++ PyStr.of_N (sec_size s) ++ " bytes" ++ nl
  ++ "- **Extension**: " ++ sec_ext s ++ nl
  ++ "- **Path**: " ++ sec_path s ++ nl ++ nl
  ++ match sec_kind s with Converted => "```markdown" | Plain => "```" end ++ nl
  ++ sec_content s
  ++ nl ++ "```" ++ nl ++ nl
  ++ "---" ++ nl ++ nl.

Inductive Event : Type :=
| Print (line : string)              (* [print(line)] *)
| OpenW (path : PurePath.t)          (* [open(path, 'w', encoding='utf-8')] *)
| Write (text : string)              (* [outfile.write(text)] *)
| WriteSection (s : Section).        (* the writes of one section *)

(** A computation: the events it causes, then its result. *)
Definition IO (A : Type) : Type := (list Event * Result A)%type.

Definition ret {A : Type} (a : A) : IO A := ([], Return a).

Definition bind {A B : Type} (m : IO A) (k : A -> IO B) : IO B :=
  match m with
  | (t, Return a) => let (t', r) := k a in (t ++ t', r)
  | (t, Raise e) => (t, Raise e)
  end.

Definition emit (ev : Event) : IO unit := ([ev], Return tt).

Definition lift {A : Type} (r : Result A) : IO A := ([], r).

(** [try: m except <exceptions selected by catches> as e: h e] *)
Definition try_except {A : Type} (m : IO A) (catches : exn -> bool)
           (h : exn -> IO A) : IO A :=
  match m with
  | (t, Raise e) => if catches e then let (t', r) := h e in (t ++ t', r) else m
  | _ => m
  end.

Declare Scope io_scope.
Delimit Scope io_scope with io.
Notation "x <- m ;; k" := (bind m (fun x => k))
  (at level 61, m at next level, right associativity) : io_scope.
Notation "' pat <- m ;; k" := (bind m (fun x => match x with pat => k end))
  (at level 61, pat pattern, m at next level, right associativity) : io_scope.
Notation "m ;; k" := (bind m (fun _ => k))
  (at level 61, right associativity) : io_scope.

(** [for x in l: body x] *)
Fixpoint for_ {A : Type} (l : list A) (body : A -> IO unit) : IO unit :=
  match l with
  | [] => ret tt
  | x :: l' => (body x ;; for_ l' body)%io
  end.

Definition print (line : string) : IO unit := emit (Print line).

(** Which exceptions an [except] clause catches. *)
Definition is_CalledProcessError (e : exn) : bool :=
  match e with CalledProcessError _ => true | _ => false end.
Definition is_BadZipFile (e : exn) : bool :=
  match e with BadZipFile _ => true | _ => false end.
Definition is_UnicodeDecodeError_or_OSError (e : exn) : bool :=
  match e with UnicodeDecodeError _ | OSError _ => true | _ => false end.
Definition is_Exception (e : exn) : bool := true.

(** Observations on a trace. *)
Definition printed (t : list Event) : list string :=
  flat_map (fun ev => match ev with Print l => [l] | _ => [] end) t.

Definition opened (t : list Event) : list PurePath.t :=
  flat_map (fun ev => match ev with OpenW p => [p] | _ => [] end) t.

Definition sections (t : list Event) : list Section :=
  flat_map (fun ev => match ev with WriteSection s => [s] | _ => [] end) t.

(** The text the run has written to the output file. *)
Definition written (t : list Event) : string :=
  String.concat EmptyString
    (flat_map (fun ev => match ev with
                         | Write s => [s]
                         | WriteSection s => [render_section s]
                         | _ => []
                         end) t).

(* ================================================================== *)
(** ** The program *)

Local Open Scope io_scope.

Definition pandoc_formats : list string :=
  [".docx"; ".odt"; ".tex"; ".latex"; ".rst"; ".org"; ".wiki";
   ".epub"; ".html"; ".htm"].

Definition jupytext_probe (w : World) : list string :=
  [sys_executable w; "-m"; "jupytext"; "--version"].

Definition jupytext_cmd (w : World) : list string :=
  [sys_executable w; "-m"; "jupytext"; "--to"; "markdown"; "--output"; "-"].

Definition pandoc_cmd : list string := ["pandoc"; "-t"; "markdown"].

(** [get_conversion_tool(extension)]: the command that converts a file of
    this extension to markdown, or [None]. *)
Definition get_conversion_tool (w : World) (extension : string)
  : Result (option (list string)) :=
  let extension := str_lower w extension in
  let pandoc :=
    if PyStr.mem extension pandoc_formats then
      match which w "pandoc" with
      | Some _ => Return (Some pandoc_cmd)
      | None => Return None
      end
    else Return None in
  if String.eqb extension ".ipynb" then
    match subprocess_run w (jupytext_probe w) with
    | Return _ => Return (Some (jupytext_cmd w))
    | Raise e => if is_CalledProcessError e then pandoc else Raise e
    end
  else pandoc.

(** [convert_file(file_path)]: [(content, was_converted)]. *)
Definition convert_file (w : World) (file_path : PurePath.t)
  : IO (option string * bool) :=
  tool_cmd <- lift (get_conversion_tool w (PurePath.suffix file_path)) ;;
  match tool_cmd with
  | Some tool_cmd =>
      try_except
        (let cmd := (tool_cmd ++ [PurePath.str_abs file_path])%list in
         stdout <- lift (subprocess_run w cmd) ;;
         ret (Some stdout, true))
        is_Exception
        (fun e =>
           if is_CalledProcessError e then
             print ("Conversion failed for " ++ PurePath.str_abs file_path
                      ++ ": " ++ exn_str e) ;;
             ret (None, false)
           else
             print ("Error converting " ++ PurePath.str_abs file_path
                      ++ ": " ++ exn_str e) ;;
             ret (None, false))
  | None => ret (None, false)
  end.

Definition text_extensions : list string :=
  [".txt"; ".md"; ".py"; ".js"; ".html"; ".css"; ".json"; ".xml";
   ".yml"; ".yaml"; ".ini"; ".conf"; ".sh"; ".bat"; ".c"; ".cpp";
   ".h"; ".java"; ".rs"; ".go"; ".ts"; ".tsx"; ".jsx"; ".vue";
   ".php"; ".rb"; ".pl"; ".sql"; ".r"; ".m"; ".swift"; ".kt"].

(** [open(file_path, 'r', ...)] on a file of the scratch directory. *)
Definition open_r (f : FileData) : Result (list byte) :=
  match f_open_error f with
  | Some msg => Raise (OSError msg)
  | None => Return (f_bytes f)
  end.

(** [is_text_file(file_path)], [f] being the file at [file_path]. *)
Definition is_text_file (w : World) (file_path : PurePath.t) (f : FileData)
  : Result bool :=
  if PyStr.mem (str_lower w (PurePath.suffix file_path)) text_extensions then
    Return true
  else
    match (bs <- open_r f ;; TextIO.read Utf8.Strict 1024 bs)%result with
    | Return _ => Return true
    | Raise e => if is_UnicodeDecodeError_or_OSError e then Return false else Raise e
    end.

(** [os.walk(top)]: each directory with its files, a directory before
    its subdirectories. *)
Fixpoint os_walk (top : PurePath.t) (t : Tree)
  : list (PurePath.t * list (string * FileData)) :=
  match t with
  | Dir files dirs =>
      (top, files)
        :: (fix walk_dirs (l : list (string * Tree)) :=
              match l with
              | [] => []
              | (name, sub) :: l' =>
                  (os_walk (PurePath.child top name) sub ++ walk_dirs l')%list
              end) dirs
  end.

Definition write_section (s : Section) : IO unit := emit (WriteSection s).

(** The plain-text handling of the loop body: what it does with a file
    that was not converted. *)
Definition text_branch (w : World) (file_path : PurePath.t)
           (relative_path : string) (f : FileData) : IO unit :=
  is_text <- lift (is_text_file w file_path f) ;;
  if is_text : bool then
    try_except
      (content <- lift (bs <- open_r f ;; TextIO.read_all Utf8.Replace bs)%result ;;
       write_section {| sec_kind := Plain;
                        sec_path := relative_path;
                        sec_size := N.of_nat (List.length (f_bytes f));
                        sec_ext := PurePath.suffix file_path;
                        sec_content := content |} ;;
       print ("Added: " ++ relative_path))
      is_Exception
      (fun e => print ("Skipping " ++ relative_path ++ ": " ++ exn_str e))
  else ret tt.

(** The body of the loops of [process_zip], for the file [file] of the
    directory [root]. *)
Definition process_file (w : World) (root : PurePath.t) (file : string)
           (f : FileData) : IO unit :=
  let file_path := PurePath.child root file in
  relative_path <-
    lift (match PurePath.relative_to file_path (temp_dir w) with
          | Some p => Return p
          | None => Raise (ValueError "path is not in the subpath")
          end) ;;
  let relative_path := PurePath.str_rel relative_path in
  '(content, converted) <- convert_file w file_path ;;
  if converted : bool then
    content <- lift (match content with
                     | Some c => Return c
                     | None => Raise (OtherException "write() argument must be str")
                     end) ;;
    write_section {| sec_kind := Converted;
                     sec_path := relative_path;
                     sec_size := N.of_nat (List.length (f_bytes f));
                     sec_ext := PurePath.suffix file_path;
                     sec_content := content |} ;;
    print ("Converted and Added: " ++ relative_path)
  else
    text_branch w file_path relative_path f.

(** [process_zip(zip_path)] *)
Definition process_zip (w : World) (zip_path : string) : IO unit :=
  let zip_path := resolve w zip_path in
  if negb (path_exists w zip_path) then
    print ("Error: File " ++ PurePath.str_abs zip_path ++ " not found.")
  else
    output_file <-
      lift (match PurePath.with_name zip_path (PurePath.name zip_path ++ ".md") with
            | Some p => Return p
            | None => Raise (ValueError "path has an empty name")
            end) ;;
    print ("Processing " ++ PurePath.str_abs zip_path ++ "...") ;;
    extracted <-
      try_except
        (t <- lift (extractall w zip_path) ;; ret (Some t))
        is_BadZipFile
        (fun _ => print "Error: Invalid zip file." ;; ret None) ;;
    match extracted with
    | None => ret tt
    | Some tree =>
        emit (OpenW output_file) ;;
        emit (Write ("# Content of " ++ PurePath.name zip_path ++ PyStr.nl ++ PyStr.nl)) ;;
        for_ (os_walk (temp_dir w) tree)
             (fun '(root, files) =>
                for_ files (fun '(file, f) => process_file w root file f)) ;;
        print ("Done! Output saved to " ++ PurePath.str_abs output_file)
    end.

(** The files the loops visit, in order: directory, name, file. *)
Definition entries (top : PurePath.t) (t : Tree)
  : list (PurePath.t * string * FileData) :=
  flat_map (fun '(root, files) => map (fun '(file, f) => (root, file, f)) files)
           (os_walk top t).

Close Scope io_scope.

(* ================================================================== *)
(** ** Notions the properties are stated with *)

(** The extension of [p] is in the allow-list of [is_text_file]. *)
Definition allow_listed (w : World) (p : PurePath.t) : bool :=
  PyStr.mem (str_lower w (PurePath.suffix p)) text_extensions.

(** The extension is one [get_conversion_tool] knows a converter for. *)
Definition convertible (w : World) (ext : string) : bool :=
  String.eqb (str_lower w ext) ".ipynb"
  || PyStr.mem (str_lower w ext) pandoc_formats.

(** The content inspection of [is_text_file] succeeds: the file opens
    and 1024 characters (or all it has) are read from it. *)
Definition sniff_ok (f : FileData) : bool :=
  negb (raises (bs <- open_r f ;; TextIO.read Utf8.Strict 1024 bs)%result).

(** [convert_file] returns [was_converted = True]. *)
Definition was_converted (w : World) (file_path : PurePath.t) : bool :=
  match snd (convert_file w file_path) with
  | Return (_, true) => true
  | _ => false
  end.

(** A text entry: a file [is_text_file] classifies as text. *)
Definition is_text_entry (w : World) (file_path : PurePath.t) (f : FileData)
  : bool :=
  match is_text_file w file_path f with
  | Return true => true
  | _ => false
  end.

(** The entries of the archive [zip_path] names, once extracted. *)
Definition archive_entries (w : World) (zip_path : string)
  : list (PurePath.t * string * FileData) :=
  match extractall w (resolve w zip_path) with
  | Return tree => entries (temp_dir w) tree
  | Raise _ => []
  end.

(** The sections one pass of the loop body writes for an entry. *)
Definition entry_sections (w : World) (e : PurePath.t * string * FileData)
  : list Section :=
  let '(root, file, f) := e in sections (fst (process_file w root file f)).

(** Only strict decoding fails, and only with [UnicodeDecodeError]. *)
Definition decode_failure (mode : Utf8.errors) (e : exn) : Prop :=
  mode = Utf8.Strict /\ exists m, e = UnicodeDecodeError m.

(** The section the plain-text handling writes for a file. *)
Definition plain_section (file_path : PurePath.t) (relative_path : string)
           (f : FileData) (content : string) : Section :=
  {| sec_kind := Plain;
     sec_path := relative_path;
     sec_size := N.of_nat (List.length (f_bytes f));
     sec_ext := PurePath.suffix file_path;
     sec_content := content |}.

(** The section the loop body writes for a converted file. *)
Definition converted_section (file_path : PurePath.t) (relative_path : string)
           (f : FileData) (content : string) : Section :=
  {| sec_kind := Converted;
     sec_path := relative_path;
     sec_size := N.of_nat (List.length (f_bytes f));
     sec_ext := PurePath.suffix file_path;
     sec_content := content |}.

(** The loop body, once the relative path is known. *)
Definition body_with (w : World) (p : PurePath.t) (rel : string) (f : FileData)
  : IO unit :=
  match convert_file w p with
  | (t, Raise e) => (t, Raise e)
  | (t, Return (Some content, true)) =>
      ((t ++ [WriteSection (converted_section p rel f content);
              Print ("Converted and Added: " ++ rel)])%list, Return tt)
  | (t, Return (None, true)) =>
      (t, Raise (OtherException "write() argument must be str"))
  | (t, Return (_, false)) =>
      let (t', r) := text_branch w p rel f in ((t ++ t')%list, r)
  end.

(** The loop of a run, over the entries of the extracted tree. *)
Definition run_loop (w : World) (tree : Tree) : IO unit :=
  for_ (entries (temp_dir w) tree)
       (fun e => let '(root, file, f) := e in process_file w root file f).

(** [open] succeeds on the file. *)
Definition can_open (f : FileData) : bool :=
  match f_open_error f with None => true | Some _ => false end.

(** The text entries of the archive. *)
Definition text_entries (w : World) (zip_path : string)
  : list (PurePath.t * string * FileData) :=
  filter (fun e => let '(root, file, f) := e in
                   is_text_entry w (PurePath.child root file) f)
         (archive_entries w zip_path).

(** The entry is converted, or else is a text entry that opens. *)
Definition emits (w : World) (e : PurePath.t * string * FileData) : bool :=
  let '(root, file, f) := e in
  was_converted w (PurePath.child root file)
  || (is_text_entry w (PurePath.child root file) f && can_open f).

(** The converter for the extension [ext] is not on this machine:
    the jupytext probe exits with an error status, or pandoc is not on
    [PATH]. *)
Definition tool_absent (w : World) (ext : string) : Prop :=
  (str_lower w ext = ".ipynb"
   /\ exists msg, subprocess_run w (jupytext_probe w) = Raise (CalledProcessError msg))
  \/ (PyStr.mem (str_lower w ext) pandoc_formats = true
      /\ which w "pandoc" = None).

(* ------------------------------------------------------------------ *)
(** Sample environments, for the runs the properties are tried on. *)

Definition text_file (s : string) : FileData :=
  {| f_bytes := list_byte_of_string s; f_open_error := None |}.

Definition binary_file (bs : list byte) : FileData :=
  {| f_bytes := bs; f_open_error := None |}.

(** The bytes [create_test_zip.py] stores as [image.png]. *)
Definition png_header : list byte :=
  [x89; x50; x4e; x47; x0d; x0a; x1a; x0a; x00; x00; x00; x0d; x49; x48; x44; x52]%byte.

(** The archive [create_test_zip.py] makes, extracted. *)
Definition test_archive : Tree :=
  Dir [("hello.txt", text_file "Hello world from a text file!");
       ("script.py", text_file "print('This is a python script')");
       ("image.png", binary_file png_header)]
      [("docs", Dir [("readme.md",
                      text_file ("# Documentation" ++ PyStr.nl
                                   ++ "This is a markdown file."))] [])].

(** A machine: [run] answers subprocesses, [pandoc] is where [PATH] has
    pandoc, [present] tells whether the archive path exists and
    [archive] is what reading it gives. *)
Definition sample_world (run : list string -> Result string)
           (pandoc : option string) (present : bool) (archive : Result Tree)
  : World :=
  {| str_lower := PyStr.lower_ascii;
     sys_executable := "/usr/bin/python3";
     subprocess_run := run;
     which := fun name => if String.eqb name "pandoc" then pandoc else None;
     resolve := fun p => ["home"; "user"; p];
     path_exists := fun _ => present;
     temp_dir := ["tmp"; "tmpk3x9"];
     extractall := fun _ => archive |}.

(** No converter installed: every subprocess exits with status 1. *)
Definition no_tools (cmd : list string) : Result string :=
  Raise (CalledProcessError "Command returned non-zero exit status 1.").

(** Pandoc installed and working, jupytext not installed. *)
Definition pandoc_only (cmd : list string) : Result string :=
  match cmd with
  | "pandoc" :: _ => Return "converted text"
  | _ => Raise (CalledProcessError "Command returned non-zero exit status 1.")
  end.

(** A notebook and a document beside a text file. *)
Definition office_archive : Tree :=
  Dir [("notes.txt", text_file "plain notes");
       ("analysis.ipynb", text_file "{ }");
       ("report.docx", binary_file [x50; x4b; x03; x04; xff; xfe]%byte)] [].

(** The office archive on a machine without converters. *)
Definition office_plain_world : World :=
  sample_world no_tools None true (Return office_archive).

(** The office archive where pandoc is on [PATH] but fails on every file. *)
Definition failing_pandoc_world : World :=
  sample_world no_tools (Some "/usr/bin/pandoc") true (Return office_archive).

(** The office archive where pandoc works. *)
Definition pandoc_world : World :=
  sample_world pandoc_only (Some "/usr/bin/pandoc") true (Return office_archive).

(** The archive path does not exist. *)
Definition missing_world : World :=
  sample_world no_tools None false (Return test_archive).

(** The archive path names a file that is not a zip archive. *)
Definition corrupt_world : World :=
  sample_world no_tools None true (Raise (BadZipFile "File is not a zip file")).

(** The archive path names a zip archive with a damaged member: the
    reader finds the archive's directory and fails while it inflates
    the member, with [zlib.error], which is no [BadZipFile]. *)
Definition damaged_world : World :=
  sample_world no_tools None true
    (Raise (OtherException "Error -3 while decompressing data: invalid stored block lengths")).

(** The test archive on a machine without converters. *)
Definition plain_world : World :=
  sample_world no_tools None true (Return test_archive).

(** 1024 letters, then a byte no UTF-8 text contains. *)
Definition kilobyte_then_bad : list byte :=
  (repeat "a"%byte 1024 ++ [xff]%byte)%list.

(** One full chunk of letters, then a byte no UTF-8 text contains. *)
Definition chunk_then_bad : list byte :=
  (repeat "a"%byte TextIO.CHUNK_SIZE ++ [xff]%byte)%list.

(** An archive of one file of unknown extension. *)
Definition blob_world : World :=
  sample_world no_tools None true
               (Return (Dir [("blob.bin", binary_file chunk_then_bad)] [])).

(** A text file that cannot be opened. *)
Definition locked_file : FileData :=
  {| f_bytes := list_byte_of_string "secret";
     f_open_error := Some "[Errno 13] Permission denied" |}.

Definition locked_world : World :=
  sample_world no_tools None true (Return (Dir [("notes.txt", locked_file)] [])).

(** A text file with a byte that is not UTF-8 in it. *)
Definition latin1_world : World :=
  sample_world no_tools None true
               (Return (Dir [("cafe.txt", binary_file [x63; x61; x66; xe9]%byte)] [])).

(* ------------------------------------------------------------------ *)
(** Notions for the further properties of the code. *)

(** The jupytext probe either returns or exits with an error status:
    it raises nothing but [CalledProcessError]. *)
Definition probe_safe (w : World) : Prop :=
  forall e, subprocess_run w (jupytext_probe w) = Raise e ->
            is_CalledProcessError e = true.

(** The entry is a notebook by its extension. *)
Definition is_notebook (w : World) (e : PurePath.t * string * FileData) : bool :=
  let '(root, file, _) := e in
  String.eqb (str_lower w (PurePath.suffix (PurePath.child root file))) ".ipynb".

(** The relative path the loop body prints and writes for an entry. *)
Definition entry_rel (w : World) (e : PurePath.t * string * FileData) : string :=
  let '(root, file, _) := e in
  match PurePath.relative_to (PurePath.child root file) (temp_dir w) with
  | Some r => PurePath.str_rel r
  | None => EmptyString
  end.


(** An event of the loop: a line printed or a section written. *)
Definition loop_event (ev : Event) : Prop :=
  match ev with
  | Print _ | WriteSection _ => True
  | OpenW _ | Write _ => False
  end.

(** The title line of the document. *)
Definition title_line (w : World) (zip_path : string) : string :=
  "# Content of " ++ PurePath.name (resolve w zip_path) ++ PyStr.nl ++ PyStr.nl.

(** The path of the output document. *)
Definition output_path (w : World) (zip_path : string) : PurePath.t :=
  (removelast (resolve w zip_path)
     ++ [(PurePath.name (resolve w zip_path) ++ ".md")%string])%list.

(** The interpreter cannot be launched: every subprocess call raises
    [OSError]. *)
Definition broken_interpreter (cmd : list string) : Result string :=
  Raise (OSError "[Errno 2] No such file or directory").

(** The office archive on a machine where no subprocess can be started. *)
Definition broken_world : World :=
  sample_world broken_interpreter None true (Return office_archive).

(** The bytes of a run of characters. *)
Definition bytes_of (cs : list Utf8.uchar) : list byte :=
  List.concat (map list_byte_of_string cs).

(** A byte of a multi-byte sequence. *)
Definition high_byte (b : byte) : Prop := (128 <= Byte.to_N b)%N.

(** A character as the codec yields it: its bytes decode to it alone,
    and they are one ASCII byte or bytes of a multi-byte sequence. *)
Definition well_formed (c : Utf8.uchar) : Prop :=
  Utf8.feed_all Utf8.Strict [] (list_byte_of_string c) = Return ([c], [])
  /\ ((exists b, (Byte.to_N b < 128)%N /\ c = string_of_list_byte [b])
      \/ Forall high_byte (list_byte_of_string c)).

(** Pending bytes as the codec keeps them: the start of a sequence. *)
Definition sound_pending (p : list byte) : Prop :=
  Utf8.feed_all Utf8.Strict [] p = Return ([], p) /\ Forall high_byte p.

(** Pending bytes are fewer than the sequence they begin is long. *)
Definition bounded_pending (p : list byte) : Prop :=
  match p with
  | [] => True
  | l :: _ => (List.length p < Utf8.seq_len l)%nat
  end.

(** A character of at most four bytes. *)
Definition short_char (c : Utf8.uchar) : Prop :=
  (List.length (list_byte_of_string c) <= 4)%nat.

(** An induction principle for trees that reaches the subdirectories. *)
Section TreeInduction.
Variable P : Tree -> Prop.
Hypothesis step : forall files dirs,
    Forall (fun nd => P (snd nd)) dirs -> P (Dir files dirs).

Fixpoint Tree_induction (t : Tree) : P t :=
  match t with
  | Dir files dirs =>
      step files dirs
           ((fix all (l : list (string * Tree)) : Forall (fun nd => P (snd nd)) l :=
               match l with
               | [] => Forall_nil _
               | nd :: l' => Forall_cons nd (Tree_induction (snd nd)) (all l')
               end) dirs)
  end.
End TreeInduction.

(* ================================================================== *)
(** ** Facts about the codec and the text reader *)

Section CodecFacts.

Import Utf8.

Lemma handle_raise mode o e :
  handle mode o = Raise e -> decode_failure mode e.
Proof.
  destruct o, mode; simpl; intros H; inversion H; subst.
  split; [reflexivity | eexists; reflexivity].
Qed.

Lemma handle_all_raise mode os e :
  handle_all mode os = Raise e -> decode_failure mode e.
Proof.
  induction os as [|o os IH]; simpl; [discriminate|].
  destruct (handle mode o) eqn:Ho; simpl.
  - destruct (handle_all mode os) eqn:Hos; simpl; [discriminate|].
    intros H; inversion H; subst. now apply IH.
  - intros H; inversion H; subst. eapply handle_raise; eauto.
Qed.

Lemma feed_all_raise mode bs : forall p e,
  feed_all mode p bs = Raise e -> decode_failure mode e.
Proof.
  induction bs as [|b bs IH]; intros p e; simpl; [discriminate|].
  destruct (feed p b) as [os p1].
  destruct (handle_all mode os) eqn:Hos; simpl.
  - destruct (feed_all mode p1 bs) as [[cs' p']|e'] eqn:Hf; simpl; [discriminate|].
    intros H; inversion H; subst. eapply IH; eauto.
  - intros H; inversion H; subst. eapply handle_all_raise; eauto.
Qed.

Lemma utf8_decode_raise mode p bs final e :
  Utf8.decode mode p bs final = Raise e -> decode_failure mode e.
Proof.
  unfold Utf8.decode.
  destruct (feed_all mode p bs) as [[cs p']|e'] eqn:Hf; simpl.
  - destruct final; [|discriminate].
    destruct (handle_all mode (flush p')) eqn:Hh; simpl; [discriminate|].
    intros H; inversion H; subst. eapply handle_all_raise; eauto.
  - intros H; inversion H; subst. eapply feed_all_raise; eauto.
Qed.

(** At the end of the data the strict decoder accepts no pending byte. *)
Lemma flush_strict p cs :
  handle_all Strict (flush p) = Return cs -> p = [] /\ cs = [].
Proof.
  destruct p as [|l p]; cbn [flush].
  - simpl. intros H; inversion H; auto.
  - destruct (surrogate_begun (l :: p)); cbn [handle_all handle rbind]; discriminate.
Qed.

Lemma textio_decode_raise mode st bs final e :
  TextIO.decode mode st bs final = Raise e -> decode_failure mode e.
Proof.
  unfold TextIO.decode.
  destruct (Utf8.decode mode (TextIO.pending st) bs final) as [[cs p]|e'] eqn:Hd; simpl.
  - destruct (TextIO.pendingcr st && (TextIO.nonempty cs || final));
      match goal with
      | |- context [TextIO.ends_with_cr ?l && _] =>
          destruct (TextIO.ends_with_cr l && negb final)
      end; intros H; discriminate H.
  - intros H; inversion H; subst. eapply utf8_decode_raise; eauto.
Qed.

Lemma read_loop_raise mode size input : forall st result e,
  TextIO.read_loop mode size st result input = Raise e -> decode_failure mode e.
Proof.
  induction input as [|c input IH]; intros st result e; simpl.
  - destruct (size <=? List.length result)%nat; [discriminate|].
    destruct (TextIO.decode mode st [] true) as [[cs st']|e'] eqn:Hd; simpl;
      [discriminate|].
    intros H; inversion H; subst. eapply textio_decode_raise; eauto.
  - destruct (size <=? List.length result)%nat; [discriminate|].
    destruct (TextIO.decode mode st c false) as [[cs st']|e'] eqn:Hd.
    + apply IH.
    + intros H; inversion H; subst. eapply textio_decode_raise; eauto.
Qed.

Lemma read_raise mode size bs e :
  TextIO.read mode size bs = Raise e -> decode_failure mode e.
Proof.
  unfold TextIO.read.
  destruct (TextIO.read_loop mode size TextIO.initial [] (TextIO.stream bs)) eqn:Hr;
    simpl; [discriminate|].
  intros H; inversion H; subst. eapply read_loop_raise; eauto.
Qed.

(** With [errors='replace'] reading a whole file always succeeds. *)
Lemma read_all_replace bs :
  exists content, TextIO.read_all Replace bs = Return content.
Proof.
  unfold TextIO.read_all.
  destruct (TextIO.decode Replace TextIO.initial bs true) as [[cs st]|e] eqn:Hd; simpl.
  - eexists; reflexivity.
  - apply textio_decode_raise in Hd. destruct Hd as [Hm _]. discriminate.
Qed.

End CodecFacts.

Section ChunkFacts.

Import Utf8.

Lemma CHUNK_SIZE_pos : (0 < TextIO.CHUNK_SIZE)%nat.
Proof. apply Nat.ltb_lt. vm_compute. reflexivity. Qed.

(** The chunks of a file, put together again, are the file. *)
Lemma concat_chunks fuel : forall bs,
  (List.length bs <= fuel)%nat -> List.concat (TextIO.chunks fuel bs) = bs.
Proof.
  induction fuel as [|fuel IH]; intros bs Hlen.
  - destruct bs; [reflexivity | simpl in Hlen; lia].
  - destruct bs as [|b bs]; [reflexivity|].
    cbn [TextIO.chunks List.concat].
    rewrite IH.
    + apply firstn_skipn.
    + rewrite length_skipn. pose proof CHUNK_SIZE_pos. simpl in *. lia.
Qed.

Lemma concat_stream bs : List.concat (TextIO.stream bs) = bs.
Proof. apply concat_chunks. lia. Qed.

(** The first chunk of a file that is not empty. *)
Lemma stream_head b bs :
  exists rest,
    TextIO.stream (b :: bs) = firstn TextIO.CHUNK_SIZE (b :: bs) :: rest.
Proof. unfold TextIO.stream. cbn [List.length TextIO.chunks]. eexists; reflexivity. Qed.

(** Decoding is the same whether the bytes come at once or in two runs. *)
Lemma feed_all_app mode a : forall p b cs q,
  feed_all mode p (a ++ b) = Return (cs, q) ->
  exists cs1 p1 cs2,
    feed_all mode p a = Return (cs1, p1)
    /\ feed_all mode p1 b = Return (cs2, q)
    /\ cs = (cs1 ++ cs2)%list.
Proof.
  induction a as [|x a IH]; intros p b cs q H.
  - exists [], p, cs. simpl in *. auto.
  - cbn [app feed_all] in *.
    destruct (feed p x) as [os p0].
    destruct (handle_all mode os) as [c0|e0]; simpl in *; [|discriminate].
    destruct (feed_all mode p0 (a ++ b)) as [[cs' q']|e'] eqn:Hrest;
      simpl in H; [|discriminate].
    inversion H; subst; clear H.
    destruct (IH _ _ _ _ Hrest) as (cs1 & p1 & cs2 & Ha & Hb & Hcs).
    rewrite Ha. simpl. exists (c0 ++ cs1)%list, p1, cs2.
    subst. rewrite app_assoc. auto.
Qed.

(** A chunk that the codec decodes, the text reader decodes, and the
    reader goes on from the bytes the codec left pending. *)
Lemma textio_decode_chunk st c cs p :
  feed_all Strict (TextIO.pending st) c = Return (cs, p) ->
  exists cs' st',
    TextIO.decode Strict st c false = Return (cs', st')
    /\ TextIO.pending st' = p.
Proof.
  intros H. unfold TextIO.decode, Utf8.decode. rewrite H. simpl.
  repeat match goal with
         | |- context [if ?c then _ else _] => destruct c
         end; eexists; eexists; split; reflexivity.
Qed.

Lemma textio_decode_end st :
  TextIO.pending st = [] ->
  exists cs' st', TextIO.decode Strict st [] true = Return (cs', st').
Proof.
  intros H. unfold TextIO.decode, Utf8.decode. rewrite H. simpl.
  destruct (TextIO.pendingcr st && true); simpl; eexists; eexists; reflexivity.
Qed.

(** Chunks that decode as a whole are read without error. *)
Lemma read_loop_valid size input : forall st result cs,
  feed_all Strict (TextIO.pending st) (List.concat input) = Return (cs, []) ->
  exists r, TextIO.read_loop Strict size st result input = Return r.
Proof.
  induction input as [|c input IH]; intros st result cs H.
  - simpl in H. assert (Hp : TextIO.pending st = []) by congruence.
    cbn [TextIO.read_loop].
    destruct (size <=? List.length result)%nat; [eexists; reflexivity|].
    destruct (textio_decode_end st Hp) as (cs' & st' & Hd).
    rewrite Hd. simpl. eexists; reflexivity.
  - cbn [List.concat] in H.
    apply feed_all_app in H. destruct H as (cs1 & p1 & cs2 & Ha & Hb & _).
    cbn [TextIO.read_loop].
    destruct (size <=? List.length result)%nat; [eexists; reflexivity|].
    destruct (textio_decode_chunk _ _ _ _ Ha) as (cs' & st' & Hd & Hp).
    rewrite Hd. apply (IH st' _ cs2). now rewrite Hp.
Qed.

(** Bytes that are valid UTF-8 throughout are read without error. *)
Lemma read_valid size bs :
  Utf8.valid bs = true -> raises (TextIO.read Strict size bs) = false.
Proof.
  unfold Utf8.valid, Utf8.decode. intros H.
  destruct (feed_all Strict [] bs) as [[cs p]|e] eqn:Hf; simpl in H; [|discriminate].
  destruct (handle_all Strict (flush p)) as [cs'|] eqn:Hh; simpl in H; [|discriminate].
  apply flush_strict in Hh. destruct Hh as [-> ->].
  unfold TextIO.read.
  destruct (read_loop_valid size (TextIO.stream bs) TextIO.initial [] cs) as [r Hr].
  - rewrite concat_stream. exact Hf.
  - rewrite Hr. reflexivity.
Qed.

(** A first chunk that does not decode makes the read fail, however
    few characters are asked for, as long as some are. *)
Lemma read_first_chunk size bs :
  (0 < size)%nat ->
  raises (Utf8.decode Strict [] (firstn TextIO.CHUNK_SIZE bs) false) = true ->
  raises (TextIO.read Strict size bs) = true.
Proof.
  intros Hsize H.
  destruct bs as [|b bs].
  - rewrite firstn_nil in H. discriminate.
  - unfold TextIO.read.
    destruct (stream_head b bs) as [rest ->].
    cbn [TextIO.read_loop List.length].
    destruct size; [lia|]. cbn [Nat.leb].
    unfold TextIO.decode. cbn [TextIO.pending TextIO.initial].
    destruct (Utf8.decode Strict [] (firstn TextIO.CHUNK_SIZE (b :: bs)) false);
      [discriminate | reflexivity].
Qed.

End ChunkFacts.

(* ================================================================== *)
(** ** Facts about traces and loops *)

Section TraceFacts.

Lemma sections_app t1 t2 : sections (t1 ++ t2) = (sections t1 ++ sections t2)%list.
Proof. unfold sections. apply flat_map_app. Qed.

Lemma opened_app t1 t2 : opened (t1 ++ t2) = (opened t1 ++ opened t2)%list.
Proof. unfold opened. apply flat_map_app. Qed.

Lemma bind_assoc {A B C : Type} (m : IO A) (k : A -> IO B) (h : B -> IO C) :
  bind (bind m k) h = bind m (fun x => bind (k x) h).
Proof.
  destruct m as [t [a|e]]; simpl; [|reflexivity].
  destruct (k a) as [t' [b|e']]; simpl; [|reflexivity].
  destruct (h b) as [t'' r]. now rewrite app_assoc.
Qed.

Lemma bind_ret_l {A B : Type} (a : A) (k : A -> IO B) : bind (ret a) k = k a.
Proof. unfold bind, ret. now destruct (k a). Qed.

Lemma bind_ext {A B : Type} (m : IO A) (k1 k2 : A -> IO B) :
  (forall x, k1 x = k2 x) -> bind m k1 = bind m k2.
Proof.
  intros H. destruct m as [t [a|e]]; simpl; [|reflexivity]. now rewrite H.
Qed.

Lemma for_app {A : Type} (body : A -> IO unit) l1 : forall l2,
  for_ (l1 ++ l2) body = bind (for_ l1 body) (fun _ => for_ l2 body).
Proof.
  induction l1 as [|x l1 IH]; intros l2; cbn [app for_].
  - now rewrite bind_ret_l.
  - rewrite bind_assoc. apply bind_ext. intros _. apply IH.
Qed.

Lemma for_map {A B : Type} (g : A -> B) (body : B -> IO unit) l :
  for_ (map g l) body = for_ l (fun x => body (g x)).
Proof.
  induction l as [|x l IH]; cbn [map for_]; [reflexivity|].
  apply bind_ext. intros _. exact IH.
Qed.

(** A loop runs its body on a prefix of the list: on all of it when it
    returns, up to the element that raised otherwise. *)
Lemma for_prefix {A : Type} (body : A -> IO unit) l :
  exists k,
    fst (for_ l body) = flat_map (fun x => fst (body x)) (firstn k l)
    /\ (snd (for_ l body) = Return tt -> firstn k l = l).
Proof.
  induction l as [|x l (k & Ht & Hr)]; simpl.
  - exists 0%nat. auto.
  - destruct (body x) as [t [[]|e]] eqn:Hb; simpl.
    + destruct (for_ l body) as [t' r]. simpl in *.
      exists (S k). simpl. rewrite Hb. simpl. split; [now rewrite Ht|].
      intros H. now rewrite (Hr H).
    + exists 1%nat. simpl. rewrite Hb. simpl. split; [now rewrite app_nil_r|].
      discriminate.
Qed.

End TraceFacts.

(* ================================================================== *)
(** ** Facts about the walk and about paths *)

Section WalkFacts.

Lemma for_ext {A : Type} (b1 b2 : A -> IO unit) l :
  (forall x, b1 x = b2 x) -> for_ l b1 = for_ l b2.
Proof.
  intros H. induction l as [|x l IH]; cbn [for_]; [reflexivity|].
  rewrite H. apply bind_ext. intros _. exact IH.
Qed.

(** The two loops of [process_zip] visit the entries, in order. *)
Lemma walk_loop w (l : list (PurePath.t * list (string * FileData))) :
  for_ l (fun '(root, files) =>
            for_ files (fun '(file, f) => process_file w root file f))
  = for_ (flat_map (fun '(root, files) =>
                      map (fun '(file, f) => (root, file, f)) files) l)
         (fun e => let '(root, file, f) := e in process_file w root file f).
Proof.
  induction l as [|[root files] l IH]; cbn [flat_map for_]; [reflexivity|].
  rewrite for_app, for_map, IH.
  f_equal. apply for_ext. intros [file f]. reflexivity.
Qed.

(** Every directory of the walk lies under its top. *)
Lemma os_walk_root t : forall top root files,
  In (root, files) (os_walk top t) -> exists d, root = (top ++ d)%list.
Proof.
  induction t as [fs dirs IH] using Tree_induction.
  intros top root files Hin. simpl in Hin.
  destruct Hin as [Heq | Hin].
  - inversion Heq; subst. exists []. now rewrite app_nil_r.
  - induction dirs as [|[name sub] dirs IHd]; [contradiction|].
    inversion IH as [|? ? Hsub Hrest]; subst.
    apply in_app_or in Hin. destruct Hin as [Hin | Hin].
    + apply Hsub in Hin. destruct Hin as [d ->].
      exists (name :: d). unfold PurePath.child. now rewrite <- app_assoc.
    + now apply IHd.
Qed.

Lemma entries_root top t root file f :
  In (root, file, f) (entries top t) -> exists d, root = (top ++ d)%list.
Proof.
  unfold entries. rewrite in_flat_map. intros ([root' files] & Hw & Hin).
  apply in_map_iff in Hin. destruct Hin as ([file' f'] & Heq & _).
  inversion Heq; subst. eapply os_walk_root; eauto.
Qed.

Lemma relative_to_app top : forall rest,
  PurePath.relative_to (top ++ rest) top = Some rest.
Proof.
  induction top as [|c top IH]; intros rest; simpl; [reflexivity|].
  now rewrite String.eqb_refl.
Qed.

End WalkFacts.

(* ================================================================== *)
(** ** What each function of the program computes *)

Section ProgramFacts.

(** [is_text_file] never raises: it answers by the allow-list, else by
    the content inspection. *)
Lemma is_text_file_eq w p f :
  is_text_file w p f = Return (allow_listed w p || sniff_ok f).
Proof.
  unfold is_text_file, allow_listed, sniff_ok.
  destruct (PyStr.mem (str_lower w (PurePath.suffix p)) text_extensions);
    [reflexivity|].
  unfold open_r. destruct (f_open_error f) as [msg|]; [reflexivity|].
  unfold rbind.
  destruct (TextIO.read Utf8.Strict 1024 (f_bytes f)) as [s|e] eqn:Hr; [reflexivity|].
  apply read_raise in Hr. destruct Hr as [_ [m ->]]. reflexivity.
Qed.

Lemma text_branch_eq w p rel f :
  text_branch w p rel f =
    if allow_listed w p || sniff_ok f then
      match f_open_error f with
      | Some msg => ([Print ("Skipping " ++ rel ++ ": " ++ msg)], Return tt)
      | None =>
          match TextIO.read_all Utf8.Replace (f_bytes f) with
          | Return content =>
              ([WriteSection (plain_section p rel f content);
                Print ("Added: " ++ rel)], Return tt)
          | Raise e => ([Print ("Skipping " ++ rel ++ ": " ++ exn_str e)], Return tt)
          end
      end
    else ([], Return tt).
Proof.
  unfold text_branch. rewrite is_text_file_eq.
  destruct (allow_listed w p || sniff_ok f); [|reflexivity].
  unfold open_r. destruct (f_open_error f) as [msg|]; [reflexivity|].
  unfold rbind. destruct (TextIO.read_all Utf8.Replace (f_bytes f)); reflexivity.
Qed.

(** The plain-text handling always returns, and writes at most one
    section, a plain one. *)
Lemma text_branch_returns w p rel f :
  snd (text_branch w p rel f) = Return tt
  /\ (sections (fst (text_branch w p rel f)) = []
      \/ exists content,
           sections (fst (text_branch w p rel f)) = [plain_section p rel f content]).
Proof.
  rewrite text_branch_eq.
  destruct (allow_listed w p || sniff_ok f); [|auto].
  destruct (f_open_error f); [auto|].
  destruct (TextIO.read_all Utf8.Replace (f_bytes f)); simpl; eauto.
Qed.

(** The three ways [convert_file] ends. *)
Lemma convert_file_eq w p :
  convert_file w p =
    match get_conversion_tool w (PurePath.suffix p) with
    | Raise e => ([], Raise e)
    | Return None => ([], Return (None, false))
    | Return (Some tool_cmd) =>
        match subprocess_run w (tool_cmd ++ [PurePath.str_abs p]) with
        | Return stdout => ([], Return (Some stdout, true))
        | Raise e =>
            ([Print ((if is_CalledProcessError e
                      then "Conversion failed for " else "Error converting ")
                       ++ PurePath.str_abs p ++ ": " ++ exn_str e)],
             Return (None, false))
        end
    end.
Proof.
  unfold convert_file.
  destruct (get_conversion_tool w (PurePath.suffix p)) as [[cmd|]|e]; try reflexivity.
  simpl. destruct (subprocess_run w (cmd ++ [PurePath.str_abs p])) as [out|e];
    [reflexivity|].
  simpl. destruct (is_CalledProcessError e); reflexivity.
Qed.

Lemma process_file_gen w root file f :
  process_file w root file f =
    match PurePath.relative_to (PurePath.child root file) (temp_dir w) with
    | None => ([], Raise (ValueError "path is not in the subpath"))
    | Some r => body_with w (PurePath.child root file) (PurePath.str_rel r) f
    end.
Proof.
  unfold process_file, body_with.
  destruct (PurePath.relative_to (PurePath.child root file) (temp_dir w)) as [r|];
    [|reflexivity].
  unfold lift at 1. cbn [bind app].
  destruct (text_branch w (PurePath.child root file) (PurePath.str_rel r) f)
    as [t' r'] eqn:Htb.
  destruct (convert_file w (PurePath.child root file)) as [t [[[c|] [|]]|e]];
    simpl; rewrite ?Htb; try rewrite app_nil_r; try reflexivity.
Qed.

(** The loop body on a file that lies under the scratch directory. *)
Lemma process_file_eq w d file f :
  let root := (temp_dir w ++ d)%list in
  process_file w root file f =
    body_with w (PurePath.child root file) (PurePath.str_rel (d ++ [file])) f.
Proof.
  intros root. rewrite process_file_gen.
  replace (PurePath.relative_to (PurePath.child root file) (temp_dir w))
    with (Some (d ++ [file])%list); [reflexivity|].
  unfold PurePath.child, root. now rewrite <- app_assoc, relative_to_app.
Qed.

End ProgramFacts.

Section RunFacts.

Variable w : World.
Variable arg : string.

Let zip_path := resolve w arg.
Let output_file :=
  (removelast zip_path ++ [(PurePath.name zip_path ++ ".md")%string])%list.

Lemma process_zip_missing :
  path_exists w zip_path = false ->
  process_zip w arg =
    ([Print ("Error: File " ++ PurePath.str_abs zip_path ++ " not found.")],
     Return tt).
Proof. intros H. unfold process_zip. fold zip_path. now rewrite H. Qed.

Lemma process_zip_unreadable e :
  path_exists w zip_path = true -> zip_path <> [] ->
  extractall w zip_path = Raise e ->
  process_zip w arg =
    if is_BadZipFile e then
      ([Print ("Processing " ++ PurePath.str_abs zip_path ++ "...");
        Print "Error: Invalid zip file."], Return tt)
    else
      ([Print ("Processing " ++ PurePath.str_abs zip_path ++ "...")], Raise e).
Proof.
  intros Hex Hname Hx. unfold process_zip. fold zip_path. rewrite Hex, Hx.
  destruct zip_path as [|c rest]; [congruence|].
  cbn [negb PurePath.with_name]. unfold lift, try_except, print, emit, ret.
  cbn [bind app]. destruct (is_BadZipFile e); reflexivity.
Qed.

Lemma process_zip_valid tree :
  path_exists w zip_path = true -> zip_path <> [] ->
  extractall w zip_path = Return tree ->
  process_zip w arg =
    ((Print ("Processing " ++ PurePath.str_abs zip_path ++ "...")
        :: OpenW output_file
        :: Write ("# Content of " ++ PurePath.name zip_path ++ PyStr.nl ++ PyStr.nl)
        :: fst (run_loop w tree)
        ++ match snd (run_loop w tree) with
           | Return _ => [Print ("Done! Output saved to " ++ PurePath.str_abs output_file)]
           | Raise _ => []
           end)%list,
     snd (run_loop w tree)).
Proof.
  intros Hex Hname Hx. unfold process_zip. fold zip_path. rewrite Hex, Hx.
  unfold run_loop, entries. rewrite <- walk_loop.
  subst output_file.
  destruct zip_path as [|c rest]; [congruence|].
  cbn [negb PurePath.with_name]. unfold lift, try_except, print, emit, ret.
  cbn [bind app].
  match goal with
  | |- context [for_ ?l ?b] => destruct (for_ l b) as [t [[]|e]]
  end; cbn [fst snd app]; [|now rewrite app_nil_r].
  reflexivity.
Qed.

End RunFacts.

Section BodyFacts.

Lemma convert_file_quiet w p :
  sections (fst (convert_file w p)) = [] /\ opened (fst (convert_file w p)) = [].
Proof.
  rewrite convert_file_eq.
  destruct (get_conversion_tool w (PurePath.suffix p)) as [[cmd|]|e]; auto.
  destruct (subprocess_run w (cmd ++ [PurePath.str_abs p])); auto.
Qed.

(** The sections one pass of the loop body writes. *)
Lemma body_with_sections w p rel f :
  sections (fst (body_with w p rel f)) =
    match snd (convert_file w p) with
    | Return (Some content, true) => [converted_section p rel f content]
    | Return (_, false) =>
        if allow_listed w p || sniff_ok f then
          match f_open_error f with
          | Some _ => []
          | None =>
              match TextIO.read_all Utf8.Replace (f_bytes f) with
              | Return content => [plain_section p rel f content]
              | Raise _ => []
              end
          end
        else []
    | _ => []
    end.
Proof.
  unfold body_with. rewrite text_branch_eq.
  destruct (convert_file_quiet w p) as [Hs _].
  destruct (convert_file w p) as [t [[[c|] [|]]|e]]; cbn [fst snd] in *;
    rewrite ?sections_app, ?Hs; try reflexivity;
    destruct (allow_listed w p || sniff_ok f); cbn [fst]; rewrite ?sections_app, ?Hs;
    try reflexivity;
    destruct (f_open_error f); cbn [fst]; rewrite ?sections_app, ?Hs;
    try reflexivity;
    destruct (TextIO.read_all Utf8.Replace (f_bytes f)); cbn [fst];
    rewrite ?sections_app, ?Hs; reflexivity.
Qed.

Lemma body_with_opened w p rel f : opened (fst (body_with w p rel f)) = [].
Proof.
  unfold body_with. rewrite text_branch_eq.
  destruct (convert_file_quiet w p) as [_ Ho].
  destruct (convert_file w p) as [t [[[c|] [|]]|e]]; cbn [fst snd] in *;
    rewrite ?opened_app, ?Ho; try reflexivity;
    destruct (allow_listed w p || sniff_ok f); cbn [fst]; rewrite ?opened_app, ?Ho;
    try reflexivity;
    destruct (f_open_error f); cbn [fst]; rewrite ?opened_app, ?Ho;
    try reflexivity;
    destruct (TextIO.read_all Utf8.Replace (f_bytes f)); cbn [fst];
    rewrite ?opened_app, ?Ho; reflexivity.
Qed.

Lemma process_file_opened w root file f :
  opened (fst (process_file w root file f)) = [].
Proof.
  rewrite process_file_gen.
  destruct (PurePath.relative_to (PurePath.child root file) (temp_dir w));
    [apply body_with_opened | reflexivity].
Qed.

Lemma opened_flat_map {A : Type} (g : A -> list Event) l :
  (forall x, opened (g x) = []) -> opened (flat_map g l) = [].
Proof.
  intros H. induction l as [|x l IH]; [reflexivity|].
  cbn [flat_map]. now rewrite opened_app, H, IH.
Qed.

Lemma sections_flat_map {A : Type} (g : A -> list Event) l :
  sections (flat_map g l) = flat_map (fun x => sections (g x)) l.
Proof.
  induction l as [|x l IH]; [reflexivity|].
  cbn [flat_map]. now rewrite sections_app, IH.
Qed.

(** The loop opens no file. *)
Lemma run_loop_opened w tree : opened (fst (run_loop w tree)) = [].
Proof.
  unfold run_loop.
  destruct (for_prefix
              (fun e : PurePath.t * string * FileData =>
                 let '(root, file, f) := e in process_file w root file f)
              (entries (temp_dir w) tree)) as (k & Ht & _).
  rewrite Ht. apply opened_flat_map. intros [[root file] f].
  apply process_file_opened.
Qed.

(** The sections of the loop are those of its passes, entry by entry. *)
Lemma run_loop_sections w tree :
  exists k,
    sections (fst (run_loop w tree))
    = flat_map (entry_sections w) (firstn k (entries (temp_dir w) tree))
    /\ (snd (run_loop w tree) = Return tt ->
        firstn k (entries (temp_dir w) tree) = entries (temp_dir w) tree).
Proof.
  unfold run_loop.
  destruct (for_prefix
              (fun e : PurePath.t * string * FileData =>
                 let '(root, file, f) := e in process_file w root file f)
              (entries (temp_dir w) tree)) as (k & Ht & Hr).
  exists k. split; [|exact Hr].
  rewrite Ht, sections_flat_map. apply flat_map_ext.
  intros [[root file] f]. reflexivity.
Qed.

End BodyFacts.

Section CountFacts.

Lemma process_zip_root w arg :
  path_exists w (resolve w arg) = true -> resolve w arg = [] ->
  process_zip w arg = ([], Raise (ValueError "path has an empty name")).
Proof. intros Hex Hroot. unfold process_zip. rewrite Hex, Hroot. reflexivity. Qed.

(** A loop that returns has returned from every pass. *)
Lemma for_returns {A : Type} (body : A -> IO unit) l :
  snd (for_ l body) = Return tt -> forall x, In x l -> snd (body x) = Return tt.
Proof.
  induction l as [|y l IH]; intros Hr x Hin; [contradiction|].
  cbn [for_] in Hr. unfold bind in Hr.
  destruct (body y) as [t [[]|e]] eqn:Hb; [|discriminate].
  destruct (for_ l body) as [t' r'] eqn:Hl. cbn [snd] in *.
  destruct Hin as [<- | Hin]; [now rewrite Hb | now apply IH].
Qed.

(** The sections of a run that got as far as the loop. *)
Lemma process_zip_sections w arg tree :
  path_exists w (resolve w arg) = true -> resolve w arg <> [] ->
  extractall w (resolve w arg) = Return tree ->
  sections (fst (process_zip w arg)) = sections (fst (run_loop w tree)).
Proof.
  intros Hex Hname Hx. rewrite (process_zip_valid w arg tree Hex Hname Hx).
  cbn [fst].
  change (sections (?a :: ?b :: ?c :: ?t)) with (sections t).
  rewrite sections_app. destruct (snd (run_loop w tree)); cbn; now rewrite app_nil_r.
Qed.

(** A run that did not get as far as the loop wrote no section. *)
Lemma process_zip_no_sections w arg :
  path_exists w (resolve w arg) = false
  \/ resolve w arg = []
  \/ (exists e, extractall w (resolve w arg) = Raise e) ->
  sections (fst (process_zip w arg)) = [].
Proof.
  intros H.
  destruct (path_exists w (resolve w arg)) eqn:Hex.
  2:{ now rewrite process_zip_missing. }
  destruct H as [H | [Hroot | [e He]]]; [discriminate| |].
  - now rewrite process_zip_root.
  - destruct (list_eq_dec string_dec (resolve w arg) []) as [Hroot | Hname].
    + now rewrite process_zip_root.
    + rewrite (process_zip_unreadable w arg e Hex Hname He).
      destruct (is_BadZipFile e); reflexivity.
Qed.

(** The sections of an entry of the walk. *)
Lemma entry_sections_eq w tree root file f :
  In (root, file, f) (entries (temp_dir w) tree) ->
  exists r,
    PurePath.relative_to (PurePath.child root file) (temp_dir w) = Some r
    /\ entry_sections w (root, file, f)
       = sections (fst (body_with w (PurePath.child root file) (PurePath.str_rel r) f))
    /\ process_file w root file f
       = body_with w (PurePath.child root file) (PurePath.str_rel r) f.
Proof.
  intros Hin. destruct (entries_root _ _ _ _ _ Hin) as [d ->].
  exists (d ++ [file])%list. unfold entry_sections.
  rewrite process_file_eq. split; [|split; reflexivity].
  unfold PurePath.child. now rewrite <- app_assoc, relative_to_app.
Qed.

Lemma length_flat_map_count {A B : Type} (g : A -> list B) (c : A -> bool) l :
  (forall x, In x l -> List.length (g x) = if c x then 1%nat else 0%nat) ->
  List.length (flat_map g l) = List.length (filter c l).
Proof.
  induction l as [|x l IH]; intros H; [reflexivity|].
  cbn [flat_map filter]. rewrite length_app, H by (left; reflexivity).
  rewrite IH by (intros y Hy; apply H; right; exact Hy).
  destruct (c x); reflexivity.
Qed.

(** How [convert_file] can end. *)
Lemma convert_outcome w p :
  (exists e, snd (convert_file w p) = Raise e)
  \/ (exists content, snd (convert_file w p) = Return (Some content, true))
  \/ snd (convert_file w p) = Return (None, false).
Proof.
  rewrite convert_file_eq.
  destruct (get_conversion_tool w (PurePath.suffix p)) as [[cmd|]|e].
  - destruct (subprocess_run w (cmd ++ [PurePath.str_abs p])) as [out|e].
    + right. left. exists out. reflexivity.
    + right. right. reflexivity.
  - right. right. reflexivity.
  - left. exists e. reflexivity.
Qed.

(** The sections of one pass, by the way the pass goes. *)
Lemma pass_sections w p rel f :
  let out := sections (fst (body_with w p rel f)) in
  (List.length out <= 1)%nat
  /\ (forall s, In s out -> sec_path s = rel)
  /\ (was_converted w p = true ->
      exists content, out = [converted_section p rel f content])
  /\ (was_converted w p = false ->
      is_text_entry w p f = false \/ can_open f = false -> out = [])
  /\ (snd (body_with w p rel f) = Return tt ->
      List.length out
      = if was_converted w p || (is_text_entry w p f && can_open f)
        then 1%nat else 0%nat).
Proof.
  intros out. subst out. rewrite body_with_sections.
  unfold was_converted, is_text_entry, can_open, body_with.
  rewrite is_text_file_eq, text_branch_eq.
  destruct (read_all_replace (f_bytes f)) as [content ->].
  destruct (convert_file w p) as [t r] eqn:Hcf.
  destruct (convert_outcome w p) as [[e He] | [[c He] | He]];
    rewrite Hcf in He; cbn [snd] in He; subst r; cbn [snd].
  - repeat split; cbn; try lia; try easy.
  - repeat split; cbn; try lia; try easy.
    + intros s [<- | []]. reflexivity.
    + intros _. eexists; reflexivity.
  - destruct (allow_listed w p || sniff_ok f); destruct (f_open_error f);
      repeat split; cbn; try lia; try easy;
      try (intros s [<- | []]; reflexivity);
      try (intros _ [H | H]; discriminate H).
Qed.

End CountFacts.

Section ExtensionFacts.

Lemma lower_char_idem (c : ascii) :
  PyStr.lower_char (PyStr.lower_char c) = PyStr.lower_char c.
Proof. destruct c as [[] [] [] [] [] [] [] []]; reflexivity. Qed.

Lemma lower_idem (s : string) :
  PyStr.lower_ascii (PyStr.lower_ascii s) = PyStr.lower_ascii s.
Proof.
  induction s as [|c s IH]; simpl; [reflexivity|].
  now rewrite lower_char_idem, IH.
Qed.

Lemma not_convertible_no_tool w ext :
  convertible w ext = false -> get_conversion_tool w ext = Return None.
Proof.
  unfold convertible, get_conversion_tool. intros H.
  apply orb_false_elim in H. destruct H as [-> ->]. reflexivity.
Qed.

Lemma allow_listed_tool_returns w p :
  allow_listed w p = true ->
  exists tool, get_conversion_tool w (PurePath.suffix p) = Return tool.
Proof.
  unfold allow_listed, get_conversion_tool. intros H.
  destruct (String.eqb_spec (str_lower w (PurePath.suffix p)) ".ipynb") as [Heq|_].
  - rewrite Heq in H. discriminate.
  - destruct (PyStr.mem (str_lower w (PurePath.suffix p)) pandoc_formats);
      [destruct (which w "pandoc")|]; eexists; reflexivity.
Qed.

End ExtensionFacts.

(* ================================================================== *)
(** ** Sample runs *)

(** The test archive, no converter at hand: the three text files are
    written, in walk order, and the image is left out. *)
Example test_archive_run :
  process_zip plain_world "test_archive.zip"
  = ([Print "Processing /home/user/test_archive.zip...";
      OpenW ["home"; "user"; "test_archive.zip.md"];
      Write ("# Content of test_archive.zip" ++ PyStr.nl ++ PyStr.nl);
      WriteSection {| sec_kind := Plain; sec_path := "hello.txt"; sec_size := 29;
                      sec_ext := ".txt";
                      sec_content := "Hello world from a text file!" |};
      Print "Added: hello.txt";
      WriteSection {| sec_kind := Plain; sec_path := "script.py"; sec_size := 32;
                      sec_ext := ".py";
                      sec_content := "print('This is a python script')" |};
      Print "Added: script.py";
      WriteSection {| sec_kind := Plain; sec_path := "docs/readme.md"; sec_size := 40;
                      sec_ext := ".md";
                      sec_content := "# Documentation" ++ PyStr.nl
                                       ++ "This is a markdown file." |};
      Print "Added: docs/readme.md";
      Print "Done! Output saved to /home/user/test_archive.zip.md"],
     Return tt).
Proof. vm_compute. reflexivity. Qed.

(** With pandoc at hand the document of the office archive has a
    converted section; the notebook, with no jupytext, is read as text. *)
Example office_run_kinds :
  map (fun s => (sec_path s, sec_kind s))
      (sections (fst (process_zip pandoc_world "office.zip")))
  = [("notes.txt", Plain); ("analysis.ipynb", Plain); ("report.docx", Converted)].
Proof. vm_compute. reflexivity. Qed.

(** The text of a section, as it stands in the output file. *)
Example render_section_text :
  render_section {| sec_kind := Converted; sec_path := "a/b.rst"; sec_size := 7;
                    sec_ext := ".rst"; sec_content := "text" |}
  = ("## File: a/b.rst (Converted)" ++ PyStr.nl
     ++ "- **Size**: 7 bytes" ++ PyStr.nl
     ++ "- **Extension**: .rst" ++ PyStr.nl
     ++ "- **Path**: a/b.rst" ++ PyStr.nl ++ PyStr.nl
     ++ "```markdown" ++ PyStr.nl ++ "text" ++ PyStr.nl
     ++ "```" ++ PyStr.nl ++ PyStr.nl ++ "---" ++ PyStr.nl ++ PyStr.nl)%string.
Proof. vm_compute. reflexivity. Qed.

(** Reading with [errors='replace']: the Latin-1 byte of [caf\xe9]
    becomes U+FFFD, and line ends become line feeds. *)
Example read_all_replaces :
  TextIO.read_all Utf8.Replace [x63; x61; x66; xe9; x0d; x0a]%byte
  = Return (string_of_list_byte [x63; x61; x66; xef; xbf; xbd; x0a]%byte).
Proof. vm_compute. reflexivity. Qed.

(** Suffixes as [pathlib] gives them. *)
Example suffix_samples :
  map PurePath.suffix_of_name ["a.TXT"; ".bashrc"; "archive.tar.gz"; "trailing."; "README"]
  = [".TXT"; EmptyString; ".gz"; EmptyString; EmptyString].
Proof. vm_compute. reflexivity. Qed.

(** The content inspection reads a chunk, not a kilobyte: a bad byte
    just after the first kilobyte is seen, one after the first chunk is
    not; a sequence cut short by the end of a short file is an error. *)
Example sniff_samples :
  map (fun bs => sniff_ok (binary_file bs))
      [kilobyte_then_bad; chunk_then_bad; [x61; xc3]%byte; []; png_header]
  = [false; true; false; true; false].
Proof. vm_compute. reflexivity. Qed.

(** A surrogate begun at the end of the chunk read waits for what
    comes next.  After 1024 letters the content inspection has its 1024
    characters and does not go on: the file is text.  After 1023 letters
    the end of the file comes next, and it is an error; so is a third
    byte in the same chunk. *)
Example surrogate_samples :
  map (fun bs => sniff_ok (binary_file bs))
      [(repeat "a"%byte 1024 ++ [xed; xa0]%byte)%list;
       (repeat "a"%byte 1023 ++ [xed; xa0]%byte)%list;
       (repeat "a"%byte 1024 ++ [xed; xa0; x80]%byte)%list]
  = [true; false; false].
Proof. vm_compute. reflexivity. Qed.

(* ================================================================== *)
(** ** Properties of the specification *)

(* ------------------------------------------------------------------ *)

(** C1, as the specification states it, fails: with pandoc at hand the
    office archive has two text entries ([notes.txt], [analysis.ipynb])
    and its document three sections, the third being the converted
    [report.docx], which is no text entry. *)
Lemma C1_counterexample :
  path_exists pandoc_world (resolve pandoc_world "office.zip") = true
  /\ extractall pandoc_world (resolve pandoc_world "office.zip") = Return office_archive
  /\ snd (process_zip pandoc_world "office.zip") = Return tt
  /\ List.length (text_entries pandoc_world "office.zip") = 2%nat
  /\ List.length (sections (fst (process_zip pandoc_world "office.zip"))) = 3%nat.
Proof. repeat split; vm_compute; reflexivity. Qed.

(** C1, amended.  For a valid archive on which the run completes, the
    output document has exactly one section for each entry that is
    converted or else is a text entry that can be opened, and no other.
    Hence, when no entry other than text entries is converted and every
    text entry that is not converted can be opened, an archive with N
    text entries yields exactly N sections. *)
Theorem C1_sections_count (w : World) (zip_path : string) (tree : Tree) :
  path_exists w (resolve w zip_path) = true ->
  resolve w zip_path <> [] ->
  extractall w (resolve w zip_path) = Return tree ->
  snd (process_zip w zip_path) = Return tt ->
  List.length (sections (fst (process_zip w zip_path)))
  = List.length (filter (emits w) (archive_entries w zip_path))
  /\ ((forall root file f,
          In (root, file, f) (archive_entries w zip_path) ->
          (was_converted w (PurePath.child root file) = true ->
           is_text_entry w (PurePath.child root file) f = true)
          /\ (is_text_entry w (PurePath.child root file) f = true ->
              was_converted w (PurePath.child root file) = false ->
              can_open f = true)) ->
      List.length (sections (fst (process_zip w zip_path)))
      = List.length (text_entries w zip_path)).
Proof.
  intros Hex Hname Hx Hdone.
  assert (Hcount : List.length (sections (fst (process_zip w zip_path)))
                   = List.length (filter (emits w) (archive_entries w zip_path))).
  { rewrite (process_zip_sections w zip_path tree Hex Hname Hx).
    rewrite (process_zip_valid w zip_path tree Hex Hname Hx) in Hdone.
    cbn [snd] in Hdone.
    destruct (run_loop_sections w tree) as (k & Hk & Hall).
    rewrite Hk, (Hall Hdone). unfold archive_entries. rewrite Hx.
    apply length_flat_map_count. intros [[root file] f] Hin.
    destruct (entry_sections_eq w tree root file f Hin) as (r & _ & -> & Hbody).
    destruct (pass_sections w (PurePath.child root file) (PurePath.str_rel r) f)
      as (_ & _ & _ & _ & Hlen).
    unfold emits. apply Hlen. rewrite <- Hbody.
    exact (for_returns _ _ Hdone (root, file, f) Hin). }
  split; [exact Hcount|].
  intros Hside. rewrite Hcount. unfold text_entries. f_equal.
  apply filter_ext_in. intros [[root file] f] Hin.
  destruct (Hside root file f Hin) as [Hconv Hopen]. unfold emits.
  destruct (was_converted w (PurePath.child root file)).
  - now rewrite Hconv.
  - destruct (is_text_entry w (PurePath.child root file) f); [|reflexivity].
    now rewrite Hopen.
Qed.

Lemma C1_sections_count_witness :
  List.length (sections (fst (process_zip plain_world "test_archive.zip")))
  = List.length (filter (emits plain_world)
                        (archive_entries plain_world "test_archive.zip"))
  /\ List.length (sections (fst (process_zip plain_world "test_archive.zip")))
     = List.length (text_entries plain_world "test_archive.zip").
Proof.
  destruct (C1_sections_count plain_world "test_archive.zip" test_archive)
    as [Hcount Htext].
  - reflexivity.
  - discriminate.
  - reflexivity.
  - vm_compute. reflexivity.
  - split; [exact Hcount|]. apply Htext.
    intros root file f Hin. vm_compute in Hin.
    destruct Hin as [H | [H | [H | [H | []]]]]; inversion H; subst;
      split; vm_compute; intros; try reflexivity; discriminate.
Defined.

(* ------------------------------------------------------------------ *)

(** The archive errors the code answers.  When the input path is
    missing, or is an existing file that the archive reader refuses with
    [BadZipFile], [process_zip] returns at once: it prints an error
    message (and nothing after it), opens no output file and writes
    nothing. *)
Lemma archive_errors_reported (w : World) (zip_path : string) :
  path_exists w (resolve w zip_path) = false
  \/ (path_exists w (resolve w zip_path) = true
      /\ resolve w zip_path <> []
      /\ exists msg, extractall w (resolve w zip_path) = Raise (BadZipFile msg)) ->
  let run := process_zip w zip_path in
  snd run = Return tt
  /\ opened (fst run) = []
  /\ written (fst run) = EmptyString
  /\ (printed (fst run)
      = [("Error: File " ++ PurePath.str_abs (resolve w zip_path) ++ " not found.")%string]
      \/ printed (fst run)
         = [("Processing " ++ PurePath.str_abs (resolve w zip_path) ++ "...")%string;
            "Error: Invalid zip file."]).
Proof.
  intros [Hmissing | (Hex & Hname & msg & Hbad)] run; subst run.
  - rewrite process_zip_missing by assumption. cbn. auto.
  - rewrite (process_zip_unreadable w zip_path _ Hex Hname Hbad). cbn. auto.
Qed.

(** Any other failure of the archive reader leaves [process_zip] as it
    came: after the line that announces the run nothing is printed, and
    no output file is opened. *)
Lemma archive_errors_uncaught (w : World) (zip_path : string) (e : exn) :
  path_exists w (resolve w zip_path) = true ->
  resolve w zip_path <> [] ->
  extractall w (resolve w zip_path) = Raise e ->
  is_BadZipFile e = false ->
  process_zip w zip_path
  = ([Print ("Processing " ++ PurePath.str_abs (resolve w zip_path) ++ "...")],
     Raise e).
Proof.
  intros Hex Hname Hx Hbad.
  rewrite (process_zip_unreadable w zip_path _ Hex Hname Hx). now rewrite Hbad.
Qed.

(** C2.  The code answers a missing path and a file that is no zip
    archive as the claim says, but it catches [BadZipFile] alone.  On an
    existing archive with a damaged member the reader raises
    [zlib.error]; the run then prints no error message: after the line
    that announces the run it ends with that exception, uncaught.  No
    output file is opened. *)
Theorem C2_damaged_archive_uncaught :
  path_exists damaged_world (resolve damaged_world "photos.zip") = true
  /\ extractall damaged_world (resolve damaged_world "photos.zip")
     = Raise (OtherException
                "Error -3 while decompressing data: invalid stored block lengths")
  /\ process_zip damaged_world "photos.zip"
     = ([Print "Processing /home/user/photos.zip..."],
        Raise (OtherException
                 "Error -3 while decompressing data: invalid stored block lengths"))
  /\ printed (fst (process_zip damaged_world "photos.zip"))
     = ["Processing /home/user/photos.zip..."]
  /\ opened (fst (process_zip damaged_world "photos.zip")) = [].
Proof. repeat split; vm_compute; reflexivity. Qed.

(* ------------------------------------------------------------------ *)

(** C3.  For every entry that has a converter, when the conversion
    subprocess exits with a non-zero status or the call raises anything
    else, [convert_file] prints one line and returns [(None, False)];
    the loop body then goes on with the plain-text handling of the
    file, and returns. *)
Theorem C3_failed_conversion_falls_back
        (w : World) (tree : Tree) (root : PurePath.t) (file : string) (f : FileData)
        (tool_cmd : list string) (e : exn) :
  In (root, file, f) (entries (temp_dir w) tree) ->
  get_conversion_tool w (PurePath.suffix (PurePath.child root file))
  = Return (Some tool_cmd) ->
  subprocess_run w (tool_cmd ++ [PurePath.str_abs (PurePath.child root file)])
  = Raise e ->
  exists line r,
    PurePath.relative_to (PurePath.child root file) (temp_dir w) = Some r
    /\ convert_file w (PurePath.child root file) = ([Print line], Return (None, false))
    /\ process_file w root file f
       = (Print line
            :: fst (text_branch w (PurePath.child root file) (PurePath.str_rel r) f),
          Return tt).
Proof.
  intros Hin Htool Hrun.
  destruct (entries_root _ _ _ _ _ Hin) as [d ->].
  eexists. exists (d ++ [file])%list.
  split; [unfold PurePath.child; now rewrite <- app_assoc, relative_to_app|].
  assert (Hc : convert_file w (PurePath.child (temp_dir w ++ d) file)
               = ([Print ((if is_CalledProcessError e
                           then "Conversion failed for " else "Error converting ")
                            ++ PurePath.str_abs (PurePath.child (temp_dir w ++ d) file)
                            ++ ": " ++ exn_str e)],
                  Return (None, false))).
  { rewrite convert_file_eq, Htool, Hrun. reflexivity. }
  split; [exact Hc|].
  rewrite process_file_eq. unfold body_with. rewrite Hc.
  pose proof (text_branch_returns w (PurePath.child (temp_dir w ++ d) file)
                                  (PurePath.str_rel (d ++ [file])) f) as [Hr _].
  destruct (text_branch w _ _ f) as [t r]. cbn [fst snd app] in *. now rewrite Hr.
Qed.

Lemma C3_failed_conversion_falls_back_witness :
  exists line r,
    PurePath.relative_to
      (PurePath.child (temp_dir failing_pandoc_world) "report.docx")
      (temp_dir failing_pandoc_world) = Some r
    /\ convert_file failing_pandoc_world
                 (PurePath.child (temp_dir failing_pandoc_world) "report.docx")
    = ([Print line], Return (None, false))
    /\ process_file failing_pandoc_world (temp_dir failing_pandoc_world) "report.docx"
                    (binary_file [x50; x4b; x03; x04; xff; xfe]%byte)
       = (Print line
            :: fst (text_branch failing_pandoc_world
                      (PurePath.child (temp_dir failing_pandoc_world) "report.docx")
                      (PurePath.str_rel r)
                      (binary_file [x50; x4b; x03; x04; xff; xfe]%byte)),
          Return tt).
Proof.
  apply (C3_failed_conversion_falls_back
           failing_pandoc_world office_archive _ _ _ pandoc_cmd
           (CalledProcessError "Command returned non-zero exit status 1.")).
  - right. right. left. reflexivity.
  - reflexivity.
  - reflexivity.
Defined.

(* ------------------------------------------------------------------ *)

(** C4, as the specification states it, fails: a file of unknown
    extension whose first 1024 bytes are valid text, followed by a byte
    that is not, is classified as binary, although decoding its first
    kilobyte succeeds. *)
Lemma C4_counterexample :
  convertible plain_world (PurePath.suffix ["tmp"; "tmpk3x9"; "data.bin"]) = false
  /\ allow_listed plain_world ["tmp"; "tmpk3x9"; "data.bin"] = false
  /\ can_open (binary_file kilobyte_then_bad) = true
  /\ Utf8.valid (firstn 1024 (f_bytes (binary_file kilobyte_then_bad))) = true
  /\ is_text_file plain_world ["tmp"; "tmpk3x9"; "data.bin"]
                  (binary_file kilobyte_then_bad)
     = Return false.
Proof. repeat split; vm_compute; reflexivity. Qed.

(** C4, amended.  [is_text_file] never raises.  A file whose extension
    is in the allow-list is text.  Any other file is text exactly when
    it can be opened and reading up to 1024 characters from it as UTF-8
    succeeds; that read decodes whole chunks of 8192 bytes, so a file
    that is valid UTF-8 throughout is text, and a file whose first chunk
    the decoder refuses is not (a sequence that the end of the chunk
    cuts short is not refused: it waits for the next chunk). *)
Theorem C4_text_heuristic (w : World) (p : PurePath.t) (f : FileData) :
  (allow_listed w p = true -> is_text_file w p f = Return true)
  /\ (allow_listed w p = false ->
      is_text_file w p f
      = Return (can_open f
                && negb (raises (TextIO.read Utf8.Strict 1024 (f_bytes f)))))
  /\ (can_open f = true -> Utf8.valid (f_bytes f) = true ->
      is_text_file w p f = Return true)
  /\ (allow_listed w p = false ->
      raises (Utf8.decode Utf8.Strict [] (firstn TextIO.CHUNK_SIZE (f_bytes f)) false)
      = true ->
      is_text_file w p f = Return false).
Proof.
  assert (Hsniff : sniff_ok f
                   = can_open f
                     && negb (raises (TextIO.read Utf8.Strict 1024 (f_bytes f)))).
  { unfold sniff_ok, can_open, open_r. destruct (f_open_error f); reflexivity. }
  rewrite is_text_file_eq, Hsniff.
  split; [|split; [|split]].
  - intros ->. reflexivity.
  - intros ->. reflexivity.
  - intros -> Hvalid. rewrite (read_valid 1024 _ Hvalid). now rewrite orb_true_r.
  - intros -> Hbad. rewrite (read_first_chunk 1024 (f_bytes f)); [|lia|exact Hbad].
    now rewrite andb_false_r.
Qed.

Lemma C4_text_heuristic_witness :
  is_text_file plain_world ["tmp"; "tmpk3x9"; "hello.txt"] (binary_file png_header)
  = Return true
  /\ is_text_file plain_world ["tmp"; "tmpk3x9"; "image.png"] (binary_file png_header)
     = Return (can_open (binary_file png_header)
               && negb (raises (TextIO.read Utf8.Strict 1024
                                            (f_bytes (binary_file png_header)))))
  /\ is_text_file plain_world ["tmp"; "tmpk3x9"; "LICENSE"] (text_file "MIT License")
     = Return true
  /\ is_text_file plain_world ["tmp"; "tmpk3x9"; "image.png"] (binary_file png_header)
     = Return false.
Proof.
  destruct (C4_text_heuristic plain_world ["tmp"; "tmpk3x9"; "hello.txt"]
                              (binary_file png_header))
    as (Hallow & _).
  destruct (C4_text_heuristic plain_world ["tmp"; "tmpk3x9"; "image.png"]
                              (binary_file png_header))
    as (_ & Hread & _ & Hchunk).
  destruct (C4_text_heuristic plain_world ["tmp"; "tmpk3x9"; "LICENSE"]
                              (text_file "MIT License"))
    as (_ & _ & Hvalid & _).
  split; [|split; [|split]].
  - apply Hallow. reflexivity.
  - apply Hread. reflexivity.
  - apply Hvalid; reflexivity.
  - apply Hchunk; reflexivity.
Defined.

(* ------------------------------------------------------------------ *)

(** C5.  The sections of the output document are, in order, those the
    loop body wrote for the entries it visited, each entry visited once;
    and for every entry of the archive one pass of the loop body writes
    at most one section, which carries that entry's relative path: a
    converted entry yields its converted section and nothing else, and an
    entry that is not converted and is either no text entry or cannot be
    opened yields no section. *)
Theorem C5_at_most_one_section_per_entry (w : World) (zip_path : string) :
  (exists k,
      sections (fst (process_zip w zip_path))
      = flat_map (entry_sections w) (firstn k (archive_entries w zip_path)))
  /\ (forall root file f,
         In (root, file, f) (archive_entries w zip_path) ->
         exists r,
           PurePath.relative_to (PurePath.child root file) (temp_dir w) = Some r
           /\ (List.length (entry_sections w (root, file, f)) <= 1)%nat
           /\ (forall s, In s (entry_sections w (root, file, f)) ->
               sec_path s = PurePath.str_rel r)
           /\ (was_converted w (PurePath.child root file) = true ->
               exists content,
                 entry_sections w (root, file, f)
                 = [converted_section (PurePath.child root file)
                                      (PurePath.str_rel r) f content])
           /\ (was_converted w (PurePath.child root file) = false ->
               is_text_entry w (PurePath.child root file) f = false
               \/ can_open f = false ->
               entry_sections w (root, file, f) = [])).
Proof.
  split.
  - unfold archive_entries.
    destruct (path_exists w (resolve w zip_path)) eqn:Hex.
    2:{ exists 0%nat. apply process_zip_no_sections. now left. }
    destruct (list_eq_dec string_dec (resolve w zip_path) []) as [Hroot | Hname].
    { exists 0%nat. apply process_zip_no_sections. right. now left. }
    destruct (extractall w (resolve w zip_path)) as [tree | e] eqn:Hx.
    2:{ exists 0%nat. apply process_zip_no_sections. right. right. now exists e. }
    rewrite (process_zip_sections w zip_path tree Hex Hname Hx).
    destruct (run_loop_sections w tree) as (k & Hk & _). now exists k.
  - intros root file f Hin. unfold archive_entries in Hin.
    destruct (extractall w (resolve w zip_path)) as [tree | e]; [|contradiction].
    destruct (entry_sections_eq w tree root file f Hin) as (r & Hrel & -> & _).
    exists r.
    destruct (pass_sections w (PurePath.child root file) (PurePath.str_rel r) f)
      as (Hlen & Hpath & Hconv & Hskip & _).
    repeat split; assumption.
Qed.

Lemma C5_at_most_one_section_per_entry_witness :
  exists r,
    PurePath.relative_to (PurePath.child (temp_dir plain_world) "image.png")
                         (temp_dir plain_world) = Some r
    /\ (List.length (entry_sections plain_world
                    (temp_dir plain_world, "image.png", binary_file png_header))
     <= 1)%nat
    /\ (forall s,
           In s (entry_sections plain_world
                   (temp_dir plain_world, "image.png", binary_file png_header)) ->
           sec_path s = PurePath.str_rel r)
    /\ (was_converted plain_world (PurePath.child (temp_dir plain_world) "image.png")
        = true ->
        exists content,
          entry_sections plain_world
            (temp_dir plain_world, "image.png", binary_file png_header)
          = [converted_section (PurePath.child (temp_dir plain_world) "image.png")
                               (PurePath.str_rel r) (binary_file png_header) content])
    /\ (was_converted plain_world (PurePath.child (temp_dir plain_world) "image.png")
        = false ->
        is_text_entry plain_world (PurePath.child (temp_dir plain_world) "image.png")
                      (binary_file png_header) = false
        \/ can_open (binary_file png_header) = false ->
        entry_sections plain_world
          (temp_dir plain_world, "image.png", binary_file png_header) = []).
Proof.
  destruct (C5_at_most_one_section_per_entry plain_world "test_archive.zip")
    as [_ Hentry].
  apply Hentry. right. right. left. reflexivity.
Defined.

(* ------------------------------------------------------------------ *)

(** C6, as the specification states it, fails: a file of unknown
    extension that starts with one full chunk of letters and then has a
    byte that is not UTF-8 cannot be decoded as text, yet it is written
    to the output document as a plain section. *)
Lemma C6_counterexample :
  In (temp_dir blob_world, "blob.bin", binary_file chunk_then_bad)
     (archive_entries blob_world "blob.zip")
  /\ Utf8.valid chunk_then_bad = false
  /\ convertible blob_world
                 (PurePath.suffix (PurePath.child (temp_dir blob_world) "blob.bin"))
     = false
  /\ allow_listed blob_world (PurePath.child (temp_dir blob_world) "blob.bin") = false
  /\ map sec_kind (entry_sections blob_world
                     (temp_dir blob_world, "blob.bin", binary_file chunk_then_bad))
     = [Plain]
  /\ map sec_path (sections (fst (process_zip blob_world "blob.zip"))) = ["blob.bin"].
Proof.
  split; [left; reflexivity|].
  repeat split; vm_compute; reflexivity.
Qed.

(** C6, amended.  For every entry whose extension is neither convertible
    nor in the allow-list and whose content inspection fails (the file
    cannot be opened, or the decoder refuses the chunks read from its
    start to collect 1024 characters; in particular when it refuses the
    first chunk of 8192 bytes), the loop body writes nothing, prints
    nothing and returns: the entry is left out and the run goes on. *)
Theorem C6_undecodable_entry_omitted
        (w : World) (tree : Tree) (root : PurePath.t) (file : string) (f : FileData) :
  In (root, file, f) (entries (temp_dir w) tree) ->
  convertible w (PurePath.suffix (PurePath.child root file)) = false ->
  allow_listed w (PurePath.child root file) = false ->
  (sniff_ok f = false -> process_file w root file f = ([], Return tt))
  /\ (raises (Utf8.decode Utf8.Strict [] (firstn TextIO.CHUNK_SIZE (f_bytes f)) false)
      = true ->
      process_file w root file f = ([], Return tt)).
Proof.
  intros Hin Hconv Hallow.
  assert (Hskip : sniff_ok f = false -> process_file w root file f = ([], Return tt)).
  { intros Hsniff.
    destruct (entries_root _ _ _ _ _ Hin) as [d ->].
    rewrite process_file_eq. unfold body_with.
    rewrite convert_file_eq, (not_convertible_no_tool w _ Hconv).
    rewrite text_branch_eq, Hallow, Hsniff. reflexivity. }
  split; [exact Hskip|].
  intros Hbad. apply Hskip.
  unfold sniff_ok, open_r. destruct (f_open_error f); [reflexivity|].
  cbn [rbind]. now rewrite (read_first_chunk 1024 (f_bytes f)) by (lia || exact Hbad).
Qed.

Lemma C6_undecodable_entry_omitted_witness :
  process_file plain_world (temp_dir plain_world) "image.png" (binary_file png_header)
  = ([], Return tt).
Proof.
  destruct (C6_undecodable_entry_omitted
              plain_world test_archive (temp_dir plain_world) "image.png"
              (binary_file png_header)) as [Hsniff Hchunk].
  - right. right. left. reflexivity.
  - reflexivity.
  - reflexivity.
  - apply Hchunk. reflexivity.
Defined.

(* ------------------------------------------------------------------ *)

(** C7.  For every entry with a convertible extension whose converter is
    absent (the jupytext probe exits with an error status; pandoc is not
    on [PATH]), [get_conversion_tool] returns [None], and the loop body
    does exactly what the plain-text handling does, and returns. *)
Theorem C7_absent_tool_falls_back
        (w : World) (tree : Tree) (root : PurePath.t) (file : string) (f : FileData) :
  In (root, file, f) (entries (temp_dir w) tree) ->
  tool_absent w (PurePath.suffix (PurePath.child root file)) ->
  get_conversion_tool w (PurePath.suffix (PurePath.child root file)) = Return None
  /\ (exists r,
        PurePath.relative_to (PurePath.child root file) (temp_dir w) = Some r
        /\ process_file w root file f
           = text_branch w (PurePath.child root file) (PurePath.str_rel r) f)
  /\ snd (process_file w root file f) = Return tt.
Proof.
  intros Hin Habsent.
  assert (Htool : get_conversion_tool w (PurePath.suffix (PurePath.child root file))
                  = Return None).
  { unfold get_conversion_tool.
    destruct Habsent as [(Hnb & msg & Hprobe) | (Hdoc & Hwhich)].
    - rewrite Hnb, Hprobe. reflexivity.
    - rewrite Hdoc, Hwhich.
      destruct (String.eqb_spec
                  (str_lower w (PurePath.suffix (PurePath.child root file))) ".ipynb")
        as [Heq|_]; [|reflexivity].
      rewrite Heq in Hdoc. discriminate. }
  split; [exact Htool|].
  destruct (entries_root _ _ _ _ _ Hin) as [d ->].
  assert (Hbody : process_file w (temp_dir w ++ d) file f
                  = text_branch w (PurePath.child (temp_dir w ++ d) file)
                                (PurePath.str_rel (d ++ [file])) f).
  { rewrite process_file_eq. unfold body_with.
    rewrite convert_file_eq, Htool.
    destruct (text_branch w _ _ f) as [t r]. reflexivity. }
  split.
  - exists (d ++ [file])%list. split; [|exact Hbody].
    unfold PurePath.child. now rewrite <- app_assoc, relative_to_app.
  - rewrite Hbody. apply text_branch_returns.
Qed.

Lemma C7_absent_tool_falls_back_witness :
  get_conversion_tool office_plain_world
    (PurePath.suffix (PurePath.child (temp_dir office_plain_world) "analysis.ipynb"))
  = Return None
  /\ (exists r,
        PurePath.relative_to
          (PurePath.child (temp_dir office_plain_world) "analysis.ipynb")
          (temp_dir office_plain_world) = Some r
        /\ process_file office_plain_world (temp_dir office_plain_world)
                        "analysis.ipynb" (text_file "{ }")
           = text_branch office_plain_world
                         (PurePath.child (temp_dir office_plain_world) "analysis.ipynb")
                         (PurePath.str_rel r) (text_file "{ }"))
  /\ snd (process_file office_plain_world (temp_dir office_plain_world)
                       "analysis.ipynb" (text_file "{ }")) = Return tt.
Proof.
  apply (C7_absent_tool_falls_back office_plain_world office_archive).
  - right. left. reflexivity.
  - left. split; [reflexivity|]. eexists; reflexivity.
Defined.

(* ------------------------------------------------------------------ *)

(** C8.  For an archive path (an existing file the reader accepts), the
    output document is opened once, before anything is written, at the
    sibling of the resolved archive path whose name is the archive's
    full file name with [.md] appended; what is written there starts
    with the title line. *)
Theorem C8_output_beside_archive (w : World) (zip_path : string) (tree : Tree) :
  path_exists w (resolve w zip_path) = true ->
  resolve w zip_path <> [] ->
  extractall w (resolve w zip_path) = Return tree ->
  exists out line rest,
    fst (process_zip w zip_path)
    = Print line
        :: OpenW out
        :: Write ("# Content of " ++ PurePath.name (resolve w zip_path)
                    ++ PyStr.nl ++ PyStr.nl)
        :: rest
    /\ opened rest = []
    /\ PurePath.parent out = PurePath.parent (resolve w zip_path)
    /\ PurePath.name out = (PurePath.name (resolve w zip_path) ++ ".md")%string.
Proof.
  intros Hex Hname Hx.
  rewrite (process_zip_valid w zip_path tree Hex Hname Hx).
  eexists. eexists. eexists. cbn [fst]. split; [reflexivity|].
  split; [|split].
  - rewrite opened_app, run_loop_opened.
    destruct (snd (run_loop w tree)); reflexivity.
  - unfold PurePath.parent. apply removelast_last.
  - unfold PurePath.name. apply last_last.
Qed.

Lemma C8_output_beside_archive_witness :
  exists out line rest,
    fst (process_zip plain_world "test_archive.zip")
    = Print line
        :: OpenW out
        :: Write ("# Content of "
                    ++ PurePath.name (resolve plain_world "test_archive.zip")
                    ++ PyStr.nl ++ PyStr.nl)
        :: rest
    /\ opened rest = []
    /\ PurePath.parent out = PurePath.parent (resolve plain_world "test_archive.zip")
    /\ PurePath.name out
       = (PurePath.name (resolve plain_world "test_archive.zip") ++ ".md")%string.
Proof.
  apply (C8_output_beside_archive plain_world "test_archive.zip" test_archive).
  - reflexivity.
  - discriminate.
  - reflexivity.
Defined.

(* ------------------------------------------------------------------ *)

(** C9.  Classification by extension does not look at the case of the
    letters.  Lower-casing being idempotent, as [str.lower] is (what it
    returns it leaves as it is), [get_conversion_tool] answers the same
    for an extension and for its lower-cased form; it answers the same
    for any two extensions that have the same lower-cased form; and for
    two paths whose extensions are one the lower-cased form of the
    other, the allow-list test of [is_text_file] and with it
    [is_text_file] on the same file agree. *)
Theorem C9_extension_case_insensitive
        (w : World) (ext ext' : string) (p q : PurePath.t) (f : FileData) :
  (forall s, str_lower w (str_lower w s) = str_lower w s) ->
  get_conversion_tool w ext = get_conversion_tool w (str_lower w ext)
  /\ (str_lower w ext = str_lower w ext' ->
      get_conversion_tool w ext = get_conversion_tool w ext')
  /\ (PurePath.suffix q = str_lower w (PurePath.suffix p) ->
      allow_listed w p = allow_listed w q /\ is_text_file w p f = is_text_file w q f).
Proof.
  intros Hidem. split; [|split].
  - unfold get_conversion_tool. now rewrite Hidem.
  - intros H. unfold get_conversion_tool. now rewrite H.
  - intros H.
    assert (Ha : allow_listed w p = allow_listed w q).
    { unfold allow_listed. now rewrite H, Hidem. }
    split; [exact Ha|]. now rewrite !is_text_file_eq, Ha.
Qed.

Lemma C9_extension_case_insensitive_witness :
  get_conversion_tool pandoc_world ".DocX"
  = get_conversion_tool pandoc_world (str_lower pandoc_world ".DocX")
  /\ get_conversion_tool pandoc_world ".DocX" = get_conversion_tool pandoc_world ".docx"
  /\ allow_listed pandoc_world ["tmp"; "README.MD"]
     = allow_listed pandoc_world ["tmp"; "README.md"]
  /\ is_text_file pandoc_world ["tmp"; "README.MD"] (binary_file png_header)
     = is_text_file pandoc_world ["tmp"; "README.md"] (binary_file png_header).
Proof.
  destruct (C9_extension_case_insensitive
              pandoc_world ".DocX" ".docx" ["tmp"; "README.MD"] ["tmp"; "README.md"]
              (binary_file png_header) lower_idem) as (Hlow & Hext & Hpath).
  split; [exact Hlow|]. split.
  - apply Hext. reflexivity.
  - apply Hpath. reflexivity.
Defined.

(* ------------------------------------------------------------------ *)

(** C10, as the specification states it, fails: a file with an
    allow-listed extension that cannot be opened is classified as text
    and then skipped; the document has no section for it. *)
Lemma C10_counterexample :
  In (temp_dir locked_world, "notes.txt", locked_file)
     (archive_entries locked_world "notes.zip")
  /\ allow_listed locked_world (PurePath.child (temp_dir locked_world) "notes.txt")
     = true
  /\ is_text_file locked_world (PurePath.child (temp_dir locked_world) "notes.txt")
                  locked_file
     = Return true
  /\ entry_sections locked_world (temp_dir locked_world, "notes.txt", locked_file) = []
  /\ sections (fst (process_zip locked_world "notes.zip")) = []
  /\ printed (fst (process_zip locked_world "notes.zip"))
     = ["Processing /home/user/notes.zip...";
        "Skipping notes.txt: [Errno 13] Permission denied";
        "Done! Output saved to /home/user/notes.zip.md"].
Proof.
  split; [left; reflexivity|].
  repeat split; vm_compute; reflexivity.
Qed.

(** C10, amended.  For every entry whose extension is in the allow-list,
    [is_text_file] returns true whatever the file holds and whether or
    not it can be read, and the loop body returns.  When the file can be
    opened the entry is in the output: it has exactly one section,
    either its converted section or a plain section whose content is the
    file read with undecodable bytes replaced, be the bytes valid text
    or not. *)
Theorem C10_allow_list_precedence
        (w : World) (tree : Tree) (root : PurePath.t) (file : string) (f : FileData) :
  In (root, file, f) (entries (temp_dir w) tree) ->
  allow_listed w (PurePath.child root file) = true ->
  (forall f', is_text_file w (PurePath.child root file) f' = Return true)
  /\ snd (process_file w root file f) = Return tt
  /\ (can_open f = true ->
      exists s,
        entry_sections w (root, file, f) = [s]
        /\ ((sec_kind s = Converted
             /\ was_converted w (PurePath.child root file) = true)
            \/ (sec_kind s = Plain
                /\ was_converted w (PurePath.child root file) = false
                /\ TextIO.read_all Utf8.Replace (f_bytes f)
                   = Return (sec_content s)))).
Proof.
  intros Hin Hallow.
  split.
  { intros f'. now rewrite is_text_file_eq, Hallow. }
  destruct (entry_sections_eq w tree root file f Hin) as (r & _ & -> & ->).
  rewrite body_with_sections. unfold body_with, was_converted.
  rewrite text_branch_eq, Hallow. cbn [orb].
  destruct (read_all_replace (f_bytes f)) as [content Hread]. rewrite Hread.
  rewrite convert_file_eq.
  destruct (allow_listed_tool_returns w _ Hallow) as [[cmd|] ->].
  - destruct (subprocess_run w (cmd ++ [PurePath.str_abs (PurePath.child root file)]))
      as [out|e]; cbn [fst snd].
    + split; [reflexivity|]. intros _. eexists. split; [reflexivity|].
      left. split; reflexivity.
    + unfold can_open. destruct (f_open_error f); cbn [fst snd];
        (split; [reflexivity|]); intros Hopen; [discriminate|].
      eexists. split; [reflexivity|]. right. repeat split; reflexivity.
  - cbn [fst snd]. unfold can_open. destruct (f_open_error f); cbn [fst snd];
      (split; [reflexivity|]); intros Hopen; [discriminate|].
    eexists. split; [reflexivity|]. right. repeat split; reflexivity.
Qed.

Lemma C10_allow_list_precedence_witness :
  (forall f',
      is_text_file latin1_world (PurePath.child (temp_dir latin1_world) "cafe.txt") f'
      = Return true)
  /\ snd (process_file latin1_world (temp_dir latin1_world) "cafe.txt"
                       (binary_file [x63; x61; x66; xe9]%byte)) = Return tt
  /\ exists s,
      entry_sections latin1_world
        (temp_dir latin1_world, "cafe.txt", binary_file [x63; x61; x66; xe9]%byte)
      = [s]
      /\ ((sec_kind s = Converted
           /\ was_converted latin1_world
                (PurePath.child (temp_dir latin1_world) "cafe.txt") = true)
          \/ (sec_kind s = Plain
              /\ was_converted latin1_world
                   (PurePath.child (temp_dir latin1_world) "cafe.txt") = false
              /\ TextIO.read_all Utf8.Replace [x63; x61; x66; xe9]%byte
                 = Return (sec_content s))).
Proof.
  destruct (C10_allow_list_precedence
              latin1_world
              (Dir [("cafe.txt", binary_file [x63; x61; x66; xe9]%byte)] [])
              (temp_dir latin1_world) "cafe.txt"
              (binary_file [x63; x61; x66; xe9]%byte)) as (Htext & Hret & Hsec).
  - left. reflexivity.
  - reflexivity.
  - split; [exact Htext|]. split; [exact Hret|]. apply Hsec. reflexivity.
Defined.

(* ================================================================== *)
(** ** Further properties of the code *)

Section ToolFacts.

Lemma pandoc_format_not_notebook (w : World) (ext : string) :
  PyStr.mem (str_lower w ext) pandoc_formats = true ->
  String.eqb (str_lower w ext) ".ipynb" = false.
Proof.
  intros H. destruct (String.eqb_spec (str_lower w ext) ".ipynb") as [Heq|]; [|reflexivity].
  rewrite Heq in H. discriminate.
Qed.

(** [get_conversion_tool] raises exactly when the extension is a
    notebook's and the jupytext probe raises something other than
    [CalledProcessError]; it then raises what the probe raised. *)
Lemma get_conversion_tool_raises (w : World) (ext : string) (e : exn) :
  get_conversion_tool w ext = Raise e
  <-> str_lower w ext = ".ipynb"
      /\ subprocess_run w (jupytext_probe w) = Raise e
      /\ is_CalledProcessError e = false.
Proof.
  unfold get_conversion_tool. split.
  - destruct (String.eqb_spec (str_lower w ext) ".ipynb") as [Heq|Hne].
    + rewrite Heq. cbn [PyStr.mem existsb pandoc_formats String.eqb Ascii.eqb Bool.eqb orb].
      destruct (subprocess_run w (jupytext_probe w)) as [out|e']; [discriminate|].
      destruct (is_CalledProcessError e') eqn:Hcpe; [discriminate|].
      intros H. inversion H; subst. auto.
    + destruct (PyStr.mem (str_lower w ext) pandoc_formats);
        [destruct (which w "pandoc")|]; discriminate.
  - intros (Heq & Hprobe & Hcpe). rewrite Heq, Hprobe, Hcpe. reflexivity.
Qed.

(** The loop body raises exactly when [get_conversion_tool] does, and
    has then printed and written nothing. *)
Lemma process_file_raises w tree root file f e :
  In (root, file, f) (entries (temp_dir w) tree) ->
  snd (process_file w root file f) = Raise e
  <-> get_conversion_tool w (PurePath.suffix (PurePath.child root file)) = Raise e.
Proof.
  intros Hin. destruct (entries_root _ _ _ _ _ Hin) as [d ->].
  rewrite process_file_eq. unfold body_with. rewrite convert_file_eq.
  pose proof (text_branch_returns w (PurePath.child (temp_dir w ++ d) file)
                                  (PurePath.str_rel (d ++ [file])) f) as [Hr _].
  destruct (get_conversion_tool w _) as [[cmd|]|e'].
  - destruct (subprocess_run w _) as [out|e'']; cbn [snd].
    + split; discriminate.
    + destruct (text_branch w _ _ f) as [t r]. cbn [snd] in *. subst r.
      split; discriminate.
  - destruct (text_branch w _ _ f) as [t r]. cbn [snd] in *. subst r.
    split; discriminate.
  - cbn [snd]. split; intros H; inversion H; reflexivity.
Qed.

Lemma process_file_raise_trace w root file f e :
  get_conversion_tool w (PurePath.suffix (PurePath.child root file)) = Raise e ->
  fst (process_file w root file f) = [].
Proof.
  intros H. rewrite process_file_gen.
  destruct (PurePath.relative_to _ _); [|reflexivity].
  unfold body_with. rewrite convert_file_eq, H. reflexivity.
Qed.

(** The loop body returns or raises; it returns nothing but [tt]. *)
Lemma unit_result (r : Result unit) : r = Return tt \/ exists e, r = Raise e.
Proof. destruct r as [[]|e]; eauto. Qed.

(** A loop all of whose passes return has run them all and returns. *)
Lemma for_all_return {A : Type} (body : A -> IO unit) l :
  (forall x, In x l -> snd (body x) = Return tt) ->
  for_ l body = (flat_map (fun x => fst (body x)) l, Return tt).
Proof.
  induction l as [|x l IH]; intros H; [reflexivity|].
  cbn [for_ flat_map]. unfold bind.
  pose proof (H x (or_introl eq_refl)) as Hx.
  destruct (body x) as [t r]. cbn [fst snd] in *. subst r.
  rewrite IH by (intros y Hy; apply H; now right). reflexivity.
Qed.

(** A loop stops at the first pass that raises. *)
Lemma for_stops {A : Type} (body : A -> IO unit) pre x post e :
  (forall y, In y pre -> snd (body y) = Return tt) ->
  snd (body x) = Raise e ->
  for_ (pre ++ x :: post) body
  = ((flat_map (fun y => fst (body y)) pre ++ fst (body x))%list, Raise e).
Proof.
  intros Hpre Hx. rewrite for_app, (for_all_return body pre Hpre).
  cbn [for_]. unfold bind. destruct (body x) as [t r]. cbn [fst snd] in *.
  subst r. reflexivity.
Qed.

End ToolFacts.

(** X1.  [get_conversion_tool] names a converter only when that converter
    is there: the jupytext command exactly for a notebook extension whose
    probe returns, the pandoc command exactly for a pandoc extension
    when pandoc is on [PATH]; in every other case that does not raise it
    returns [None]. *)
Theorem X1_tool_iff_available (w : World) (ext : string) (cmd : list string) :
  get_conversion_tool w ext = Return (Some cmd)
  <-> (cmd = jupytext_cmd w
       /\ str_lower w ext = ".ipynb"
       /\ exists out, subprocess_run w (jupytext_probe w) = Return out)
      \/ (cmd = pandoc_cmd
          /\ PyStr.mem (str_lower w ext) pandoc_formats = true
          /\ exists path, which w "pandoc" = Some path).
Proof.
  unfold get_conversion_tool. split.
  - destruct (String.eqb_spec (str_lower w ext) ".ipynb") as [Heq|Hne].
    + rewrite Heq. cbn [PyStr.mem existsb pandoc_formats String.eqb Ascii.eqb Bool.eqb orb].
      destruct (subprocess_run w (jupytext_probe w)) as [out|e].
      * intros H. inversion H. left. eauto.
      * destruct (is_CalledProcessError e); discriminate.
    + destruct (PyStr.mem (str_lower w ext) pandoc_formats); [|discriminate].
      destruct (which w "pandoc") as [path|]; [|discriminate].
      intros H. inversion H. right. eauto.
  - intros [(-> & Heq & out & Hprobe) | (-> & Hmem & path & Hwhich)].
    + rewrite Heq, Hprobe. reflexivity.
    + rewrite (pandoc_format_not_notebook w ext Hmem), Hmem, Hwhich. reflexivity.
Qed.

Lemma X1_tool_iff_available_witness :
  get_conversion_tool pandoc_world ".HTM" = Return (Some pandoc_cmd)
  /\ (pandoc_cmd = jupytext_cmd pandoc_world
       /\ str_lower pandoc_world ".rst" = ".ipynb"
       /\ (exists out,
              subprocess_run pandoc_world (jupytext_probe pandoc_world) = Return out)
      \/ pandoc_cmd = pandoc_cmd
         /\ PyStr.mem (str_lower pandoc_world ".rst") pandoc_formats = true
         /\ (exists path, which pandoc_world "pandoc" = Some path)).
Proof.
  split.
  - apply (X1_tool_iff_available pandoc_world ".HTM" pandoc_cmd).
    right. split; [reflexivity|]. split; [reflexivity|]. eexists; reflexivity.
  - apply (X1_tool_iff_available pandoc_world ".rst" pandoc_cmd). reflexivity.
Defined.

Section RunOutcome.

(** An entry that is no notebook, or any entry when the probe is safe,
    is passed without raising. *)
Lemma pass_returns w tree root file f :
  In (root, file, f) (entries (temp_dir w) tree) ->
  probe_safe w \/ is_notebook w (root, file, f) = false ->
  snd (process_file w root file f) = Return tt.
Proof.
  intros Hin Hsafe.
  destruct (unit_result (snd (process_file w root file f))) as [H | [e H]];
    [exact H|].
  apply (process_file_raises w tree) in H; [|exact Hin].
  apply get_conversion_tool_raises in H. destruct H as (Heq & Hprobe & Hcpe).
  destruct Hsafe as [Hsafe | Hnb].
  - rewrite (Hsafe e Hprobe) in Hcpe. discriminate.
  - unfold is_notebook in Hnb. rewrite Heq in Hnb. discriminate.
Qed.

End RunOutcome.

(** X3.  When the jupytext probe raises something other than
    [CalledProcessError], the first notebook of the walk aborts the run:
    [process_zip] raises what the probe raised.  The output document is
    left opened and holds the title line and the sections of the entries
    before that notebook; nothing is printed or written for the notebook
    or for any entry after it, and the closing line is not printed. *)
Theorem X3_probe_error_aborts
        (w : World) (zip_path : string) (tree : Tree)
        (before after : list (PurePath.t * string * FileData))
        (root : PurePath.t) (file : string) (f : FileData) (e : exn) :
  path_exists w (resolve w zip_path) = true ->
  resolve w zip_path <> [] ->
  extractall w (resolve w zip_path) = Return tree ->
  entries (temp_dir w) tree = (before ++ (root, file, f) :: after)%list ->
  forallb (fun x => negb (is_notebook w x)) before = true ->
  is_notebook w (root, file, f) = true ->
  subprocess_run w (jupytext_probe w) = Raise e ->
  is_CalledProcessError e = false ->
  process_zip w zip_path
  = ((Print ("Processing " ++ PurePath.str_abs (resolve w zip_path) ++ "...")
        :: OpenW (output_path w zip_path)
        :: Write (title_line w zip_path)
        :: flat_map (fun x => let '(root, file, f) := x in
                              fst (process_file w root file f)) before)%list,
     Raise e).
Proof.
  intros Hex Hname Hx Hsplit Hbefore Hnb Hprobe Hcpe.
  assert (Htool : get_conversion_tool w (PurePath.suffix (PurePath.child root file))
                  = Raise e).
  { apply get_conversion_tool_raises. unfold is_notebook in Hnb.
    apply String.eqb_eq in Hnb. auto. }
  assert (Hin : forall x, In x (before ++ (root, file, f) :: after) ->
                          In x (entries (temp_dir w) tree)).
  { intros x Hx'. now rewrite Hsplit. }
  rewrite (process_zip_valid w zip_path tree Hex Hname Hx).
  unfold run_loop. rewrite Hsplit.
  rewrite (for_stops _ before (root, file, f) after e).
  - cbn [fst snd]. rewrite (process_file_raise_trace w root file f e Htool).
    rewrite !app_nil_r. unfold output_path, title_line.
    rewrite (flat_map_ext _ (fun x : PurePath.t * string * FileData =>
                               let '(root, file, f) := x in
                               fst (process_file w root file f)));
      [reflexivity|].
    intros [[root' file'] f']. reflexivity.
  - intros [[root' file'] f'] Hy. apply (pass_returns w tree).
    + apply Hin. apply in_or_app. now left.
    + right. rewrite forallb_forall in Hbefore. specialize (Hbefore _ Hy).
      now apply negb_true_iff in Hbefore.
  - apply (process_file_raises w tree); [|exact Htool].
    apply Hin. apply in_or_app. right. now left.
Qed.

Lemma X3_probe_error_aborts_witness :
  process_zip broken_world "office.zip"
  = ((Print ("Processing " ++ PurePath.str_abs (resolve broken_world "office.zip")
               ++ "...")
        :: OpenW (output_path broken_world "office.zip")
        :: Write (title_line broken_world "office.zip")
        :: flat_map (fun x => let '(root, file, f) := x in
                              fst (process_file broken_world root file f))
                    [(temp_dir broken_world, "notes.txt", text_file "plain notes")])%list,
     Raise (OSError "[Errno 2] No such file or directory")).
Proof.
  apply (X3_probe_error_aborts
           broken_world "office.zip" office_archive
           [(temp_dir broken_world, "notes.txt", text_file "plain notes")]
           [(temp_dir broken_world, "report.docx",
             binary_file [x50; x4b; x03; x04; xff; xfe]%byte)]
           (temp_dir broken_world) "analysis.ipynb" (text_file "{ }")).
  - reflexivity.
  - discriminate.
  - reflexivity.
  - reflexivity.
  - reflexivity.
  - reflexivity.
  - reflexivity.
  - reflexivity.
Defined.

Section StringFacts.

Lemma append_empty_r (s : string) : (s ++ EmptyString)%string = s.
Proof. induction s as [|c s IH]; simpl; [reflexivity | now rewrite IH]. Qed.

Lemma append_assoc (a b c : string) : ((a ++ b) ++ c = a ++ (b ++ c))%string.
Proof. induction a as [|x a IH]; simpl; [reflexivity | now rewrite IH]. Qed.

Lemma length_append (a b : string) :
  String.length (a ++ b) = (String.length a + String.length b)%nat.
Proof. induction a as [|x a IH]; simpl; [reflexivity | now rewrite IH]. Qed.

Lemma concat_empty_cons (x : string) (l : list string) :
  String.concat EmptyString (x :: l) = (x ++ String.concat EmptyString l)%string.
Proof. destruct l; simpl; [now rewrite append_empty_r | reflexivity]. Qed.

Lemma concat_empty_app (l1 l2 : list string) :
  String.concat EmptyString (l1 ++ l2)
  = (String.concat EmptyString l1 ++ String.concat EmptyString l2)%string.
Proof.
  induction l1 as [|x l1 IH]; [reflexivity|].
  cbn [app]. now rewrite !concat_empty_cons, IH, append_assoc.
Qed.

Lemma string_of_list_byte_app (a b : list byte) :
  string_of_list_byte (a ++ b)
  = (string_of_list_byte a ++ string_of_list_byte b)%string.
Proof.
  unfold string_of_list_byte.
  induction a as [|x a IH]; simpl; [reflexivity | now rewrite IH].
Qed.

Lemma list_byte_of_string_app (a b : string) :
  list_byte_of_string (a ++ b)
  = (list_byte_of_string a ++ list_byte_of_string b)%list.
Proof.
  unfold list_byte_of_string.
  induction a as [|x a IH]; simpl; [reflexivity | now rewrite IH].
Qed.

Lemma name_child root file : PurePath.name (PurePath.child root file) = file.
Proof. unfold PurePath.name, PurePath.child. apply last_last. Qed.

End StringFacts.

Section DocumentFacts.

(** Every event of a pass of the loop body is a line printed or a
    section written. *)
Lemma process_file_events w root file f :
  Forall loop_event (fst (process_file w root file f)).
Proof.
  rewrite process_file_gen.
  destruct (PurePath.relative_to _ _) as [r|]; [|constructor].
  unfold body_with. rewrite convert_file_eq, text_branch_eq.
  destruct (read_all_replace (f_bytes f)) as [content ->].
  destruct (get_conversion_tool w _) as [[cmd|]|e];
    [destruct (subprocess_run w _)| |];
    try destruct (allow_listed w _ || sniff_ok f);
    try destruct (f_open_error f);
    cbn; repeat constructor.
Qed.

Lemma run_loop_events w tree : Forall loop_event (fst (run_loop w tree)).
Proof.
  unfold run_loop.
  destruct (for_prefix
              (fun e : PurePath.t * string * FileData =>
                 let '(root, file, f) := e in process_file w root file f)
              (entries (temp_dir w) tree)) as (k & -> & _).
  apply Forall_flat_map. apply Forall_forall. intros [[root file] f] _.
  apply process_file_events.
Qed.

(** What a trace of loop events has written is its sections, rendered. *)
Lemma written_loop_events t :
  Forall loop_event t ->
  written t = String.concat EmptyString (map render_section (sections t)).
Proof.
  unfold written, sections. induction 1 as [|ev t Hev _ IH]; [reflexivity|].
  destruct ev; try contradiction; cbn [flat_map app map].
  - exact IH.
  - rewrite !concat_empty_cons. now rewrite IH.
Qed.

End DocumentFacts.

(** X5.  On a valid archive the text written to the output document is
    the title line followed by the rendered sections, in the order they
    were written, and nothing else; this holds also for a run that is
    aborted midway.  In particular an archive none of whose entries is
    written gives a document that is the title line alone. *)
Theorem X5_document_text (w : World) (zip_path : string) (tree : Tree) :
  path_exists w (resolve w zip_path) = true ->
  resolve w zip_path <> [] ->
  extractall w (resolve w zip_path) = Return tree ->
  written (fst (process_zip w zip_path))
  = (title_line w zip_path
       ++ String.concat EmptyString
            (map render_section (sections (fst (process_zip w zip_path)))))%string
  /\ (sections (fst (process_zip w zip_path)) = [] ->
      written (fst (process_zip w zip_path)) = title_line w zip_path).
Proof.
  intros Hex Hname Hx.
  assert (Htext : written (fst (process_zip w zip_path))
                  = (title_line w zip_path
                       ++ String.concat EmptyString
                            (map render_section
                                 (sections (fst (process_zip w zip_path)))))%string).
  { rewrite (process_zip_sections w zip_path tree Hex Hname Hx).
    rewrite (process_zip_valid w zip_path tree Hex Hname Hx). cbn [fst].
    set (done := match snd (run_loop w tree) with
                 | Return _ => _
                 | Raise _ => []
                 end).
    assert (Hall : Forall loop_event (fst (run_loop w tree) ++ done)).
    { apply Forall_app. split; [apply run_loop_events|].
      subst done. destruct (snd (run_loop w tree)); repeat constructor. }
    assert (Hsec : sections (fst (run_loop w tree) ++ done)
                   = sections (fst (run_loop w tree))).
    { rewrite sections_app. subst done.
      destruct (snd (run_loop w tree)); cbn; now rewrite app_nil_r. }
    rewrite <- Hsec, <- (written_loop_events _ Hall).
    unfold written at 1. cbn [flat_map app]. rewrite concat_empty_cons.
    reflexivity. }
  split; [exact Htext|].
  intros Hnone. rewrite Htext, Hnone. cbn [map String.concat]. apply append_empty_r.
Qed.

Lemma X5_document_text_witness :
  written (fst (process_zip plain_world "test_archive.zip"))
  = (title_line plain_world "test_archive.zip"
       ++ String.concat EmptyString
            (map render_section
                 (sections (fst (process_zip plain_world "test_archive.zip")))))%string
  /\ (sections (fst (process_zip plain_world "test_archive.zip")) = [] ->
      written (fst (process_zip plain_world "test_archive.zip"))
      = title_line plain_world "test_archive.zip").
Proof.
  apply (X5_document_text plain_world "test_archive.zip" test_archive).
  - reflexivity.
  - discriminate.
  - reflexivity.
Defined.

Section PassFacts.

(** The relative path of an entry that lies under the scratch directory. *)
Lemma entry_rel_under w d file f :
  entry_rel w ((temp_dir w ++ d)%list, file, f) = PyStr.join "/" (d ++ [file]).
Proof.
  unfold entry_rel, PurePath.child. rewrite <- app_assoc, relative_to_app.
  unfold PurePath.str_rel. destruct d; reflexivity.
Qed.

Lemma str_rel_under d file :
  PurePath.str_rel (d ++ [file]) = PyStr.join "/" (d ++ [file]).
Proof. unfold PurePath.str_rel. destruct d; reflexivity. Qed.

(** The paths of the sections of one pass over an entry of the walk. *)
Lemma entry_paths w tree e :
  In e (entries (temp_dir w) tree) ->
  (let '(root, file, f) := e in snd (process_file w root file f)) = Return tt ->
  map sec_path (entry_sections w e) = if emits w e then [entry_rel w e] else [].
Proof.
  destruct e as [[root file] f]. intros Hin Hret.
  destruct (entry_sections_eq w tree root file f Hin) as (r & Hrel & Hsec & Hbody).
  rewrite Hsec. unfold entry_rel, emits. rewrite Hrel.
  rewrite Hbody in Hret.
  destruct (pass_sections w (PurePath.child root file) (PurePath.str_rel r) f)
    as (_ & Hpath & _ & _ & Hlen).
  specialize (Hlen Hret).
  destruct (was_converted w (PurePath.child root file)
            || is_text_entry w (PurePath.child root file) f && can_open f);
    destruct (sections (fst (body_with w (PurePath.child root file)
                                       (PurePath.str_rel r) f)))
    as [|s [|s' l]]; try discriminate; [|reflexivity].
  cbn [map]. now rewrite (Hpath s (or_introl eq_refl)).
Qed.

Lemma map_flat_map {A B C : Type} (g : B -> C) (h : A -> list B) l :
  map g (flat_map h l) = flat_map (fun x => map g (h x)) l.
Proof.
  induction l as [|x l IH]; [reflexivity|].
  cbn [flat_map]. now rewrite map_app, IH.
Qed.

Lemma flat_map_filter {A B : Type} (c : A -> bool) (g : A -> B) (h : A -> list B) l :
  (forall x, In x l -> h x = if c x then [g x] else []) ->
  flat_map h l = map g (filter c l).
Proof.
  induction l as [|x l IH]; intros H; [reflexivity|].
  cbn [flat_map filter]. rewrite (H x (or_introl eq_refl)).
  rewrite IH by (intros y Hy; apply H; now right).
  destruct (c x); reflexivity.
Qed.

End PassFacts.

(** X4.  A pass of the loop body over an entry writes the converted
    section, prints its line and does nothing else exactly when a
    converter is named for the entry's extension and its run on the
    file's absolute path, given as last argument, returns; the content
    of the section is then the standard output of that run.  The file
    itself is neither classified nor opened. *)
Theorem X4_converted_iff_tool_ran
        (w : World) (tree : Tree) (root : PurePath.t) (file : string)
        (f : FileData) (stdout : string) :
  In (root, file, f) (entries (temp_dir w) tree) ->
  (exists tool_cmd,
      get_conversion_tool w (PurePath.suffix (PurePath.child root file))
      = Return (Some tool_cmd)
      /\ subprocess_run w (tool_cmd ++ [PurePath.str_abs (PurePath.child root file)])
         = Return stdout)
  <-> process_file w root file f
      = ([WriteSection (converted_section (PurePath.child root file)
                                          (entry_rel w (root, file, f)) f stdout);
          Print ("Converted and Added: " ++ entry_rel w (root, file, f))],
         Return tt).
Proof.
  intros Hin. destruct (entries_root _ _ _ _ _ Hin) as [d ->].
  rewrite entry_rel_under, <- str_rel_under.
  rewrite process_file_eq. unfold body_with.
  rewrite convert_file_eq, text_branch_eq.
  destruct (read_all_replace (f_bytes f)) as [content ->].
  split.
  - intros (cmd & -> & ->). reflexivity.
  - destruct (get_conversion_tool w _) as [[cmd|]|e] eqn:Htool.
    + destruct (subprocess_run w _) as [out|e] eqn:Hrun.
      * intros H. inversion H; subst. exists cmd. split; [reflexivity | exact Hrun].
      * destruct (allow_listed w _ || sniff_ok f); [destruct (f_open_error f)|];
          intros H; inversion H.
    + destruct (allow_listed w _ || sniff_ok f); [destruct (f_open_error f)|];
        intros H; inversion H.
    + intros H. inversion H.
Qed.

Lemma X4_converted_iff_tool_ran_witness :
  process_file pandoc_world (temp_dir pandoc_world) "report.docx"
               (binary_file [x50; x4b; x03; x04; xff; xfe]%byte)
  = ([WriteSection
        (converted_section
           (PurePath.child (temp_dir pandoc_world) "report.docx")
           (entry_rel pandoc_world
                      (temp_dir pandoc_world, "report.docx",
                       binary_file [x50; x4b; x03; x04; xff; xfe]%byte))
           (binary_file [x50; x4b; x03; x04; xff; xfe]%byte) "converted text");
      Print ("Converted and Added: "
               ++ entry_rel pandoc_world
                    (temp_dir pandoc_world, "report.docx",
                     binary_file [x50; x4b; x03; x04; xff; xfe]%byte))],
     Return tt).
Proof.
  apply (X4_converted_iff_tool_ran pandoc_world office_archive).
  - right. right. left. reflexivity.
  - exists pandoc_cmd. split; reflexivity.
Defined.

(** X6.  On a valid archive on which the run completes, the paths of
    the sections of the document are the relative paths of the entries
    that are converted or else are text entries that open, in the order
    of the walk: no entry is listed twice, none out of order. *)
Theorem X6_document_lists_entries (w : World) (zip_path : string) (tree : Tree) :
  path_exists w (resolve w zip_path) = true ->
  resolve w zip_path <> [] ->
  extractall w (resolve w zip_path) = Return tree ->
  snd (process_zip w zip_path) = Return tt ->
  map sec_path (sections (fst (process_zip w zip_path)))
  = map (entry_rel w) (filter (emits w) (entries (temp_dir w) tree)).
Proof.
  intros Hex Hname Hx Hdone.
  rewrite (process_zip_sections w zip_path tree Hex Hname Hx).
  rewrite (process_zip_valid w zip_path tree Hex Hname Hx) in Hdone.
  cbn [snd] in Hdone.
  destruct (run_loop_sections w tree) as (k & -> & Hall). rewrite (Hall Hdone).
  rewrite map_flat_map. apply flat_map_filter.
  intros e Hin. apply (entry_paths w tree e Hin).
  pose proof (for_returns _ _ Hdone e Hin) as Hret.
  destruct e as [[root file] f]. exact Hret.
Qed.

Lemma X6_document_lists_entries_witness :
  map sec_path (sections (fst (process_zip pandoc_world "office.zip")))
  = map (entry_rel pandoc_world)
        (filter (emits pandoc_world) (entries (temp_dir pandoc_world) office_archive)).
Proof.
  apply (X6_document_lists_entries pandoc_world "office.zip" office_archive).
  - reflexivity.
  - discriminate.
  - reflexivity.
  - vm_compute. reflexivity.
Defined.

(** X7.  Whatever section is written for an entry carries the entry's
    own data: its path relative to the scratch directory with [/]
    between the components, the size in bytes of the extracted file
    (also when the content is a conversion), and the suffix of the file
    name as it is spelled, not lower-cased; it is marked as converted
    exactly when [convert_file] reported a conversion. *)
Theorem X7_section_metadata
        (w : World) (d : list string) (file : string) (f : FileData) (s : Section) :
  In s (entry_sections w ((temp_dir w ++ d)%list, file, f)) ->
  sec_path s = PyStr.join "/" (d ++ [file])
  /\ sec_size s = N.of_nat (List.length (f_bytes f))
  /\ sec_ext s = PurePath.suffix_of_name file
  /\ (sec_kind s = Converted
      <-> was_converted w (PurePath.child (temp_dir w ++ d) file) = true).
Proof.
  unfold entry_sections. rewrite process_file_eq, body_with_sections.
  unfold was_converted. rewrite str_rel_under.
  assert (Hext : PurePath.suffix (PurePath.child (temp_dir w ++ d) file)
                 = PurePath.suffix_of_name file).
  { unfold PurePath.suffix. now rewrite name_child. }
  destruct (snd (convert_file w (PurePath.child (temp_dir w ++ d) file)))
    as [[[c|] [|]]|e]; cbn [In]; try contradiction.
  - intros [<- | []]. cbn. rewrite Hext. repeat split; reflexivity.
  - destruct (allow_listed w _ || sniff_ok f); [|contradiction].
    destruct (f_open_error f); [contradiction|].
    destruct (TextIO.read_all Utf8.Replace (f_bytes f)); [|contradiction].
    intros [<- | []]. cbn. rewrite Hext. repeat split; discriminate.
  - destruct (allow_listed w _ || sniff_ok f); [|contradiction].
    destruct (f_open_error f); [contradiction|].
    destruct (TextIO.read_all Utf8.Replace (f_bytes f)); [|contradiction].
    intros [<- | []]. cbn. rewrite Hext. repeat split; discriminate.
Qed.

Lemma X7_section_metadata_witness :
  sec_path (converted_section
              (PurePath.child (temp_dir pandoc_world ++ ["docs"]) "Guide.RST")
              "docs/Guide.RST" (text_file "Guide") "converted text")
  = PyStr.join "/" (["docs"] ++ ["Guide.RST"])
  /\ sec_size (converted_section
                 (PurePath.child (temp_dir pandoc_world ++ ["docs"]) "Guide.RST")
                 "docs/Guide.RST" (text_file "Guide") "converted text")
     = N.of_nat (List.length (f_bytes (text_file "Guide")))
  /\ sec_ext (converted_section
                (PurePath.child (temp_dir pandoc_world ++ ["docs"]) "Guide.RST")
                "docs/Guide.RST" (text_file "Guide") "converted text")
     = PurePath.suffix_of_name "Guide.RST"
  /\ (sec_kind (converted_section
                  (PurePath.child (temp_dir pandoc_world ++ ["docs"]) "Guide.RST")
                  "docs/Guide.RST" (text_file "Guide") "converted text")
      = Converted
      <-> was_converted pandoc_world
            (PurePath.child (temp_dir pandoc_world ++ ["docs"]) "Guide.RST") = true).
Proof.
  apply (X7_section_metadata pandoc_world ["docs"] "Guide.RST" (text_file "Guide")).
  left. reflexivity.
Defined.

Section WalkCount.


End WalkCount.



Section DecoderFacts.

Import Utf8.

Lemma bytes_of_app cs1 cs2 : bytes_of (cs1 ++ cs2) = (bytes_of cs1 ++ bytes_of cs2)%list.
Proof. unfold bytes_of. now rewrite map_app, concat_app. Qed.

Lemma bytes_of_concat cs :
  list_byte_of_string (String.concat EmptyString cs) = bytes_of cs.
Proof.
  induction cs as [|c cs IH]; [reflexivity|].
  rewrite concat_empty_cons, list_byte_of_string_app, IH. reflexivity.
Qed.

Lemma concat_of_bytes cs :
  String.concat EmptyString cs = string_of_list_byte (bytes_of cs).
Proof. now rewrite <- bytes_of_concat, string_of_list_byte_of_string. Qed.

(** One step of strict decoding that does not fail yields at most one
    character and loses no byte. *)
Lemma feed_strict p b os q cs :
  feed p b = (os, q) -> handle_all Strict os = Return cs ->
  (bytes_of cs ++ q = p ++ [b])%list /\ (List.length cs <= 1)%nat
  /\ handle_all Replace os = Return cs.
Proof.
  assert (Hone : forall seq, bytes_of [string_of_list_byte seq] = seq).
  { intros seq. unfold bytes_of. cbn [map List.concat].
    now rewrite list_byte_of_string_of_list_byte, app_nil_r. }
  unfold feed, start. intros Hfeed Hh.
  destruct p as [|l p'].
  - destruct (Byte.to_N b <? 128)%N.
    + inversion Hfeed; subst. inversion Hh; subst.
      rewrite Hone. repeat split; auto.
    + destruct ((194 <=? Byte.to_N b)%N && (Byte.to_N b <? 245)%N);
        inversion Hfeed; subst; inversion Hh; subst.
      repeat split; auto.
  - destruct (surrogate_begun (l :: p')).
    { destruct (Byte.to_N b <? 128)%N;
        [|destruct ((194 <=? Byte.to_N b)%N && (Byte.to_N b <? 245)%N)];
        inversion Hfeed; subst; inversion Hh. }
    destruct (accepts (l :: p') b).
    + destruct (List.length ((l :: p') ++ [b]) =? seq_len l)%nat;
        inversion Hfeed; subst; inversion Hh; subst.
      * rewrite Hone, app_nil_r. repeat split; auto.
      * repeat split; auto.
    + destruct (surrogate_begun ((l :: p') ++ [b])).
      * inversion Hfeed; subst; inversion Hh; subst. repeat split; auto.
      * destruct (Byte.to_N b <? 128)%N;
          [|destruct ((194 <=? Byte.to_N b)%N && (Byte.to_N b <? 245)%N)];
          inversion Hfeed; subst; inversion Hh.
Qed.

(** Strict decoding that succeeds loses no byte, yields no more
    characters than it was fed bytes, and is what decoding with
    replacement yields too. *)
Lemma feed_all_strict bs : forall p cs q,
  feed_all Strict p bs = Return (cs, q) ->
  (bytes_of cs ++ q = p ++ bs)%list
  /\ (List.length cs <= List.length bs)%nat
  /\ feed_all Replace p bs = Return (cs, q).
Proof.
  induction bs as [|b bs IH]; intros p cs q H.
  - inversion H; subst. cbn. rewrite app_nil_r. auto.
  - cbn [feed_all] in *. destruct (feed p b) as [os p1] eqn:Hfeed.
    destruct (handle_all Strict os) as [c0|e] eqn:Hh; [|discriminate].
    cbn [rbind] in H.
    destruct (feed_all Strict p1 bs) as [[cs' q']|e] eqn:Hrest; [|discriminate].
    cbn [rbind] in H. inversion H; subst; clear H.
    destruct (feed_strict _ _ _ _ _ Hfeed Hh) as (Hb & Hl & Hr).
    destruct (IH _ _ _ Hrest) as (Hb' & Hl' & Hr').
    rewrite Hr, Hr'. cbn [rbind]. split; [|split; [|reflexivity]].
    + rewrite bytes_of_app, <- app_assoc, Hb', app_assoc, Hb, <- app_assoc.
      reflexivity.
    + rewrite length_app. cbn [List.length]. lia.
Qed.

Lemma flush_raises p :
  raises (handle_all Strict (flush p)) = match p with [] => false | _ => true end.
Proof.
  destruct (handle_all Strict (flush p)) as [cs|e] eqn:Hh.
  - apply flush_strict in Hh. destruct Hh as [-> _]. reflexivity.
  - destruct p; [discriminate Hh | reflexivity].
Qed.

(** What [Utf8.valid] says of the automaton. *)
Lemma valid_iff bs :
  Utf8.valid bs = true <-> exists cs, feed_all Strict [] bs = Return (cs, []).
Proof.
  unfold Utf8.valid, Utf8.decode.
  destruct (feed_all Strict [] bs) as [[cs q]|e]; cbn [rbind].
  - destruct (handle_all Strict (flush q)) as [cs'|e] eqn:Hh; cbn [rbind raises negb].
    + apply flush_strict in Hh. destruct Hh as [-> _].
      split; [intros _; now exists cs | reflexivity].
    + split; [discriminate|]. intros [cs' H]. inversion H; subst.
      cbn in Hh. discriminate.
  - cbn. split; [discriminate|]. intros [cs' H]. discriminate.
Qed.

(** A proof by cases on lists that follows [TextIO.translate]. *)
Lemma list_ind_pairs {A : Type} (P : list A -> Prop) :
  P [] -> (forall x, P [x]) ->
  (forall x y l, P l -> P (y :: l) -> P (x :: y :: l)) ->
  forall l, P l.
Proof.
  intros Hnil Hone Hstep l.
  assert (H : P l /\ forall x, P (x :: l)); [|apply H].
  induction l as [|y l [IH1 IH2]]; [auto|].
  split; [apply IH2|]. intros x. apply Hstep; auto.
Qed.

Lemma translate_no_cr cs :
  Forall (fun c => c <> TextIO.CR) cs -> TextIO.translate cs = cs.
Proof.
  induction 1 as [|c cs Hc _ IH]; [reflexivity|].
  cbn [TextIO.translate]. apply String.eqb_neq in Hc. now rewrite Hc, IH.
Qed.

Lemma last_in {A : Type} (d : A) l : l <> [] -> In (last l d) l.
Proof.
  induction l as [|x l IH]; [congruence|]. intros _.
  destruct l as [|y l]; [now left|]. right. apply IH. discriminate.
Qed.

Lemma ends_with_cr_no_cr cs :
  Forall (fun c => c <> TextIO.CR) cs -> TextIO.ends_with_cr cs = false.
Proof.
  intros H. unfold TextIO.ends_with_cr. destruct cs as [|c cs]; [reflexivity|].
  apply String.eqb_neq. rewrite Forall_forall in H. apply H.
  apply last_in. discriminate.
Qed.

End DecoderFacts.

Section VerbatimFacts.

Import Utf8.

Lemma no_cr_chars cs :
  ~ In x0d (bytes_of cs) -> Forall (fun c => c <> TextIO.CR) cs.
Proof.
  intros Hno. apply Forall_forall. intros c Hc ->. apply Hno.
  unfold bytes_of. apply in_concat. exists (list_byte_of_string TextIO.CR).
  split; [now apply in_map | now left].
Qed.

(** Bytes that are valid UTF-8 and hold no carriage return are read as
    they are, by strict decoding and by decoding with replacement. *)
Lemma read_all_verbatim mode bs :
  Utf8.valid bs = true -> ~ In x0d bs ->
  TextIO.read_all mode bs = Return (string_of_list_byte bs).
Proof.
  intros Hvalid Hno. apply valid_iff in Hvalid. destruct Hvalid as [cs Hcs].
  destruct (feed_all_strict _ _ _ _ Hcs) as (Hbytes & _ & Hrep).
  rewrite app_nil_r in Hbytes. cbn [app] in Hbytes.
  assert (Hfeed : feed_all mode [] bs = Return (cs, [])) by (destruct mode; assumption).
  assert (Hcr : Forall (fun c => c <> TextIO.CR) cs).
  { apply no_cr_chars. now rewrite Hbytes. }
  unfold TextIO.read_all, TextIO.decode, Utf8.decode.
  cbn [TextIO.pending TextIO.pendingcr TextIO.initial]. rewrite Hfeed.
  cbn [rbind flush handle_all andb negb].
  rewrite app_nil_r, andb_false_r, (translate_no_cr _ Hcr).
  cbn [rbind]. now rewrite concat_of_bytes, Hbytes.
Qed.

End VerbatimFacts.

(** X10.  A file that opens, is valid UTF-8 throughout and holds no
    carriage return is classified as text whatever its name, and its
    content is read as it is: when the file is not converted, its
    section holds the bytes of the file unchanged.  This covers the
    empty file, whose section has an empty content. *)
Theorem X10_valid_text_verbatim
        (w : World) (d : list string) (file : string) (f : FileData) :
  f_open_error f = None ->
  Utf8.valid (f_bytes f) = true ->
  ~ In x0d (f_bytes f) ->
  is_text_file w (PurePath.child (temp_dir w ++ d) file) f = Return true
  /\ TextIO.read_all Utf8.Replace (f_bytes f)
     = Return (string_of_list_byte (f_bytes f))
  /\ (snd (convert_file w (PurePath.child (temp_dir w ++ d) file))
      = Return (None, false) ->
      entry_sections w ((temp_dir w ++ d)%list, file, f)
      = [plain_section (PurePath.child (temp_dir w ++ d) file)
                       (PyStr.join "/" (d ++ [file])) f
                       (string_of_list_byte (f_bytes f))]).
Proof.
  intros Hopen Hvalid Hno.
  assert (Hsniff : sniff_ok f = true).
  { unfold sniff_ok, open_r. rewrite Hopen. cbn [rbind].
    now rewrite (read_valid 1024 _ Hvalid). }
  split; [|split].
  - rewrite is_text_file_eq, Hsniff. now rewrite orb_true_r.
  - now apply read_all_verbatim.
  - intros Hconv. unfold entry_sections.
    rewrite process_file_eq, body_with_sections, Hconv, Hsniff, orb_true_r, Hopen.
    rewrite (read_all_verbatim Utf8.Replace _ Hvalid Hno).
    now rewrite str_rel_under.
Qed.

Lemma X10_valid_text_verbatim_witness :
  is_text_file plain_world (PurePath.child (temp_dir plain_world ++ ["docs"]) "NOTES")
               (binary_file [x63; x61; x66; xc3; xa9]%byte)
  = Return true
  /\ TextIO.read_all Utf8.Replace (f_bytes (text_file "hello"))
     = Return (string_of_list_byte (f_bytes (text_file "hello")))
  /\ entry_sections plain_world ((temp_dir plain_world ++ ["docs"])%list, "NOTES",
                                 binary_file [])
     = [plain_section (PurePath.child (temp_dir plain_world ++ ["docs"]) "NOTES")
                      (PyStr.join "/" (["docs"] ++ ["NOTES"])) (binary_file [])
                      (string_of_list_byte (f_bytes (binary_file [])))].
Proof.
  destruct (X10_valid_text_verbatim plain_world ["docs"] "NOTES"
                                    (binary_file [x63; x61; x66; xc3; xa9]%byte))
    as (Htext & _ & _);
    [reflexivity | reflexivity | vm_compute; intuition discriminate |].
  destruct (X10_valid_text_verbatim plain_world ["docs"] "NOTES" (text_file "hello"))
    as (_ & Hread & _);
    [reflexivity | reflexivity | vm_compute; intuition discriminate |].
  destruct (X10_valid_text_verbatim plain_world ["docs"] "NOTES" (binary_file []))
    as (_ & _ & Hsec);
    [reflexivity | reflexivity | intros [] |].
  split; [exact Htext|]. split; [exact Hread|]. apply Hsec. reflexivity.
Defined.

Section ShortFileFacts.

Import Utf8.

Lemma chunks_nil fuel : TextIO.chunks fuel [] = [].
Proof. destruct fuel; reflexivity. Qed.

(** A file that fits in one chunk is read in one chunk. *)
Lemma stream_short b bs :
  (List.length (b :: bs) <= TextIO.CHUNK_SIZE)%nat ->
  TextIO.stream (b :: bs) = [b :: bs].
Proof.
  intros Hlen. unfold TextIO.stream. cbn [List.length TextIO.chunks].
  rewrite firstn_all2 by exact Hlen. rewrite skipn_all2 by exact Hlen.
  now rewrite chunks_nil.
Qed.

Lemma translate_length cs :
  (List.length (TextIO.translate cs) <= List.length cs)%nat.
Proof.
  induction cs as [| x | x y l IH1 IH2] using list_ind_pairs.
  - reflexivity.
  - cbn. destruct (String.eqb x TextIO.CR); cbn; lia.
  - cbn [TextIO.translate] in *.
    destruct (String.eqb x TextIO.CR).
    + destruct (String.eqb y TextIO.LF); cbn [List.length] in *; lia.
    + cbn [List.length] in *. lia.
Qed.

Lemma removelast_length {A : Type} (l : list A) :
  (List.length (removelast l) <= List.length l)%nat.
Proof.
  induction l as [|x l IH]; [reflexivity|].
  destruct l; cbn [removelast List.length] in *; lia.
Qed.

(** The first chunk, decoded: no more characters than the codec gave,
    and the codec's pending bytes kept. *)
Lemma textio_decode_first bs cs p :
  feed_all Strict [] bs = Return (cs, p) ->
  exists cs' cr,
    TextIO.decode Strict TextIO.initial bs false
    = Return (cs', {| TextIO.pending := p; TextIO.pendingcr := cr |})
    /\ (List.length cs' <= List.length cs)%nat.
Proof.
  intros H. unfold TextIO.decode, Utf8.decode.
  cbn [TextIO.pending TextIO.pendingcr TextIO.initial]. rewrite H.
  cbn [rbind andb negb]. rewrite andb_true_r.
  destruct (TextIO.ends_with_cr cs); eexists; eexists; (split; [reflexivity|]).
  - pose proof (translate_length (removelast cs)).
    pose proof (removelast_length cs). lia.
  - apply translate_length.
Qed.

(** At the end of the file the reader fails exactly when a sequence is
    left incomplete. *)
Lemma textio_decode_last p cr :
  raises (TextIO.decode Strict {| TextIO.pending := p; TextIO.pendingcr := cr |}
                        [] true)
  = match p with [] => false | _ => true end.
Proof.
  unfold TextIO.decode, Utf8.decode. cbn [TextIO.pending TextIO.pendingcr feed_all rbind].
  destruct p as [|b p]; [destruct cr; reflexivity|].
  pose proof (flush_raises (b :: p)) as Hfl.
  destruct (handle_all Strict (flush (b :: p))) as [cs|e]; cbn [rbind raises] in *;
    [discriminate | reflexivity].
Qed.

Lemma read_loop_chunk mode size st result chunk input :
  TextIO.read_loop mode size st result (chunk :: input)
  = if (size <=? List.length result)%nat then Return (firstn size result)
    else match TextIO.decode mode st chunk false with
         | Return (cs, st') => TextIO.read_loop mode size st' (result ++ cs) input
         | Raise e => Raise e
         end.
Proof. reflexivity. Qed.

Lemma read_loop_end mode size st result :
  TextIO.read_loop mode size st result []
  = if (size <=? List.length result)%nat then Return (firstn size result)
    else rbind (TextIO.decode mode st [] true)
               (fun x => let '(cs, _) := x in Return (firstn size (result ++ cs))).
Proof. reflexivity. Qed.

(** Under a kilobyte the content inspection is a test of validity. *)
Lemma read_short bs :
  (List.length bs < 1024)%nat ->
  raises (TextIO.read Strict 1024 bs) = negb (Utf8.valid bs).
Proof.
  intros Hlen. destruct bs as [|b bs]; [vm_compute; reflexivity|].
  assert (Hchunk : (1024 <= TextIO.CHUNK_SIZE)%nat).
  { apply Nat.leb_le. vm_compute. reflexivity. }
  unfold TextIO.read. rewrite stream_short by lia.
  unfold Utf8.valid, Utf8.decode.
  rewrite read_loop_chunk.
  replace (1024 <=? List.length (@nil uchar))%nat with false by reflexivity.
  destruct (feed_all Strict [] (b :: bs)) as [[cs p]|e] eqn:Hfeed.
  - destruct (textio_decode_first _ _ _ Hfeed) as (cs' & cr & -> & Hcs').
    destruct (feed_all_strict _ _ _ _ Hfeed) as (_ & Hcs & _).
    rewrite read_loop_end. cbn [app].
    assert (Hfew : (1024 <=? List.length cs')%nat = false).
    { apply Nat.leb_gt. lia. }
    rewrite Hfew.
    pose proof (textio_decode_last p cr) as Hlast.
    pose proof (flush_raises p) as Hfl.
    cbn [rbind].
    destruct (TextIO.decode Strict _ [] true) as [[cs'' st'']|e'];
      destruct (handle_all Strict (flush p));
      cbn [rbind raises negb] in *; destruct p; congruence.
  - unfold TextIO.decode, Utf8.decode.
    cbn [TextIO.pending TextIO.initial]. rewrite Hfeed. reflexivity.
Qed.

End ShortFileFacts.

(** X11.  For a file of fewer than 1024 bytes the content inspection of
    [is_text_file] is a test of UTF-8 validity of the whole file: such a
    file is classified as text exactly when its extension is in the
    allow-list, or it opens and its bytes are valid UTF-8. *)
Theorem X11_short_file_text_iff_valid (w : World) (p : PurePath.t) (f : FileData) :
  (List.length (f_bytes f) < 1024)%nat ->
  is_text_file w p f
  = Return (allow_listed w p || (can_open f && Utf8.valid (f_bytes f))).
Proof.
  intros Hlen. rewrite is_text_file_eq. do 2 f_equal.
  unfold sniff_ok, can_open, open_r.
  destruct (f_open_error f); [reflexivity|].
  cbn [rbind andb]. rewrite (read_short _ Hlen). apply negb_involutive.
Qed.

Lemma X11_short_file_text_iff_valid_witness :
  is_text_file plain_world ["tmp"; "tmpk3x9"; "image.png"] (binary_file png_header)
  = Return (allow_listed plain_world ["tmp"; "tmpk3x9"; "image.png"]
            || (can_open (binary_file png_header)
                && Utf8.valid (f_bytes (binary_file png_header)))).
Proof.
  apply (X11_short_file_text_iff_valid plain_world ["tmp"; "tmpk3x9"; "image.png"]
                                       (binary_file png_header)).
  apply Nat.ltb_lt. vm_compute. reflexivity.
Defined.

Section ReplacementFacts.

Import Utf8.

Lemma feed_all_join mode a : forall p b cs1 p1 cs2 q,
  feed_all mode p a = Return (cs1, p1) ->
  feed_all mode p1 b = Return (cs2, q) ->
  feed_all mode p (a ++ b) = Return ((cs1 ++ cs2)%list, q).
Proof.
  induction a as [|x a IH]; intros p b cs1 p1 cs2 q Ha Hb.
  - inversion Ha; subst. exact Hb.
  - cbn [app feed_all] in *. destruct (feed p x) as [os p0].
    destruct (handle_all mode os) as [c0|e]; [|discriminate]. cbn [rbind] in *.
    destruct (feed_all mode p0 a) as [[cs' q']|e] eqn:Hrest; [|discriminate].
    cbn [rbind] in Ha. inversion Ha; subst; clear Ha.
    rewrite (IH _ _ _ _ _ _ Hrest Hb). cbn [rbind]. now rewrite app_assoc.
Qed.

Lemma feed_all_one mode p b :
  feed_all mode p [b]
  = (let (os, q) := feed p b in
     rbind (handle_all mode os) (fun cs => Return (cs, q))).
Proof.
  cbn [feed_all]. destruct (feed p b) as [os q].
  destruct (handle_all mode os); cbn [rbind]; [now rewrite app_nil_r | reflexivity].
Qed.

Lemma sound_pending_nil : sound_pending [].
Proof. split; [reflexivity | constructor]. Qed.

(** A byte met with nothing pending. *)
Lemma start_sound b os q :
  start b = (os, q) ->
  sound_pending q /\ (forall c, In (Emit c) os -> well_formed c).
Proof.
  unfold start. destruct (Byte.to_N b <? 128)%N eqn:Hascii.
  - intros H. inversion H; subst. split; [apply sound_pending_nil|].
    intros c [Hc | []]. inversion Hc; subst. split.
    + rewrite list_byte_of_string_of_list_byte, feed_all_one.
      unfold feed, start. rewrite Hascii. reflexivity.
    + left. exists b. split; [now apply N.ltb_lt | reflexivity].
  - destruct ((194 <=? Byte.to_N b)%N && (Byte.to_N b <? 245)%N) eqn:Hlead;
      intros H; inversion H; subst.
    + split; [|intros c []]. split.
      * rewrite feed_all_one. unfold feed, start. now rewrite Hascii, Hlead.
      * constructor; [|constructor]. unfold high_byte.
        apply andb_prop in Hlead. destruct Hlead as [Hlo _].
        apply N.leb_le in Hlo. lia.
    + split; [apply sound_pending_nil|]. intros c [Hc | []]. discriminate.
Qed.

Lemma accepts_high p b : accepts p b = true -> high_byte b.
Proof.
  unfold accepts, is_continuation, high_byte. intros H.
  assert (Hc : (128 <=? Byte.to_N b)%N = true).
  { destruct p as [|l [|? ?]];
      repeat match type of H with
             | (if ?c then _ else _) = true => destruct c
             end;
      repeat (apply andb_prop in H; destruct H as [H _]); exact H || discriminate. }
  now apply N.leb_le.
Qed.

Lemma surrogate_high p b : surrogate_begun (p ++ [b]) = true -> high_byte b.
Proof.
  destruct p as [|l [|x [|y p]]]; cbn [app surrogate_begun]; try discriminate.
  intros H. apply andb_prop in H. destruct H as [H _].
  apply andb_prop in H. destruct H as [_ H]. apply N.leb_le in H.
  unfold high_byte. lia.
Qed.

(** One step keeps the pending bytes sound and yields well-formed
    characters only. *)
Lemma feed_sound p b os q :
  sound_pending p -> feed p b = (os, q) ->
  sound_pending q /\ (forall c, In (Emit c) os -> well_formed c).
Proof.
  intros [Hp Hhigh] Hfeed. unfold feed in Hfeed.
  destruct p as [|l p']; [now apply (start_sound b)|].
  destruct (surrogate_begun (l :: p')) eqn:Hsur.
  { destruct (start b) as [os' q'] eqn:Hstart. inversion Hfeed; subst.
    destruct (start_sound _ _ _ Hstart) as [Hq Hos]. split; [exact Hq|].
    intros c [Hc | [Hc | Hc]]; [discriminate | discriminate | now apply Hos]. }
  destruct (accepts (l :: p') b) eqn:Hacc.
  - assert (Hseq : Forall high_byte ((l :: p') ++ [b])).
    { apply Forall_app. split; [exact Hhigh|].
      constructor; [now apply (accepts_high (l :: p')) | constructor]. }
    destruct (List.length ((l :: p') ++ [b]) =? seq_len l)%nat eqn:Hfull;
      inversion Hfeed; subst.
    + split; [apply sound_pending_nil|].
      intros c [Hc | []]. inversion Hc; subst. unfold well_formed.
      rewrite list_byte_of_string_of_list_byte. split; [|now right].
      apply (feed_all_join Strict (l :: p') [] [b] [] (l :: p')); [exact Hp|].
      rewrite feed_all_one. unfold feed. rewrite Hsur, Hacc, Hfull. reflexivity.
    + split; [|intros c []]. split; [|exact Hseq].
      apply (feed_all_join Strict (l :: p') [] [b] [] (l :: p') []); [exact Hp|].
      rewrite feed_all_one. unfold feed. rewrite Hsur, Hacc, Hfull. reflexivity.
  - destruct (surrogate_begun ((l :: p') ++ [b])) eqn:Hkeep.
    + inversion Hfeed; subst. split; [|intros c []]. split.
      * apply (feed_all_join Strict (l :: p') [] [b] [] (l :: p') []); [exact Hp|].
        rewrite feed_all_one. unfold feed. rewrite Hsur, Hacc, Hkeep. reflexivity.
      * change (Forall high_byte ((l :: p') ++ [b])).
        apply Forall_app. split; [exact Hhigh|].
        constructor; [now apply (surrogate_high (l :: p')) | constructor].
    + destruct (start b) as [os' q'] eqn:Hstart. inversion Hfeed; subst.
      destruct (start_sound _ _ _ Hstart) as [Hq Hos]. split; [exact Hq|].
      intros c [Hc | Hc]; [discriminate | now apply Hos].
Qed.

(** What is undecodable at the end of the data holds no character. *)
Lemma flush_no_char p c : ~ In (Emit c) (flush p).
Proof.
  unfold flush. destruct p as [|l p]; [intros []|].
  destruct (surrogate_begun (l :: p)); cbn [In]; intuition discriminate.
Qed.

Lemma replacement_well_formed : well_formed REPLACEMENT.
Proof.
  split; [reflexivity|]. right. repeat constructor; unfold high_byte; cbn; lia.
Qed.

Lemma handle_all_sound os cs :
  (forall c, In (Emit c) os -> well_formed c) ->
  handle_all Replace os = Return cs -> Forall well_formed cs.
Proof.
  revert cs. induction os as [|o os IH]; intros cs Hos H.
  - inversion H. constructor.
  - cbn [handle_all] in H.
    destruct (handle Replace o) as [c|e] eqn:Ho; [|discriminate]. cbn [rbind] in H.
    destruct (handle_all Replace os) as [cs'|e]; [|discriminate]. cbn [rbind] in H.
    inversion H; subst. constructor.
    + destruct o; inversion Ho; subst;
        [apply Hos; now left | apply replacement_well_formed].
    + apply IH; [|reflexivity]. intros c' Hc'. apply Hos. now right.
Qed.

(** Decoding with replacement yields well-formed characters only. *)
Lemma feed_all_sound bs : forall p cs q,
  sound_pending p -> feed_all Replace p bs = Return (cs, q) ->
  Forall well_formed cs /\ sound_pending q.
Proof.
  induction bs as [|b bs IH]; intros p cs q Hp H.
  - inversion H; subst. split; [constructor | exact Hp].
  - cbn [feed_all] in H. destruct (feed p b) as [os p1] eqn:Hfeed.
    destruct (feed_sound _ _ _ _ Hp Hfeed) as [Hp1 Hos].
    destruct (handle_all Replace os) as [c0|e] eqn:Hh; [|discriminate].
    cbn [rbind] in H.
    destruct (feed_all Replace p1 bs) as [[cs' q']|e] eqn:Hrest; [|discriminate].
    cbn [rbind] in H. inversion H; subst.
    destruct (IH _ _ _ Hp1 Hrest) as [Hcs' Hq].
    split; [|exact Hq]. apply Forall_app. split; [|exact Hcs'].
    now apply (handle_all_sound os).
Qed.

Lemma lf_well_formed : well_formed TextIO.LF.
Proof.
  split; [reflexivity|]. left. exists x0a. split; [cbn; lia | reflexivity].
Qed.

(** After the translation of line ends no carriage return is left. *)
Lemma translate_sound cs :
  Forall well_formed cs ->
  Forall (fun c => well_formed c /\ c <> TextIO.CR) (TextIO.translate cs).
Proof.
  induction cs as [| x | x y l IH1 IH2] using list_ind_pairs; intros H.
  - constructor.
  - inversion H as [|? ? Hx _]; subst. cbn [TextIO.translate].
    destruct (String.eqb_spec x TextIO.CR) as [->|Hne].
    + constructor; [split; [apply lf_well_formed | discriminate] | constructor].
    + constructor; [now split | constructor].
  - inversion H as [|? ? Hx Hyl]; subst. inversion Hyl as [|? ? Hy Hl]; subst.
    cbn [TextIO.translate] in *.
    destruct (String.eqb_spec x TextIO.CR) as [->|Hne].
    + constructor; [split; [apply lf_well_formed | discriminate]|].
      destruct (String.eqb y TextIO.LF); [now apply IH1 | now apply IH2].
    + constructor; [now split|]. now apply IH2.
Qed.

(** A well-formed character other than the carriage return holds no
    carriage return byte. *)
Lemma well_formed_no_cr c :
  well_formed c -> c <> TextIO.CR -> ~ In x0d (list_byte_of_string c).
Proof.
  intros [_ [(b & Hb & ->) | Hhigh]] Hne Hin.
  - rewrite list_byte_of_string_of_list_byte in Hin. destruct Hin as [-> | []].
    apply Hne. reflexivity.
  - rewrite Forall_forall in Hhigh. specialize (Hhigh _ Hin).
    unfold high_byte in Hhigh. cbn in Hhigh. lia.
Qed.

(** Well-formed characters, put together, decode to themselves. *)
Lemma well_formed_concat cs :
  Forall well_formed cs -> feed_all Strict [] (bytes_of cs) = Return (cs, []).
Proof.
  induction 1 as [|c cs [Hc _] _ IH]; [reflexivity|].
  unfold bytes_of. cbn [map List.concat].
  exact (feed_all_join Strict _ [] _ [c] [] cs [] Hc IH).
Qed.

(** What reading a whole file with replacement gives. *)
Lemma read_all_sound bs :
  exists cs,
    TextIO.read_all Replace bs = Return (String.concat EmptyString cs)
    /\ Forall (fun c => well_formed c /\ c <> TextIO.CR) cs.
Proof.
  unfold TextIO.read_all, TextIO.decode, Utf8.decode.
  cbn [TextIO.pending TextIO.pendingcr TextIO.initial].
  destruct (feed_all Replace [] bs) as [[cs q]|e] eqn:Hfeed.
  2:{ apply feed_all_raise in Hfeed. destruct Hfeed as [Hm _]. discriminate. }
  destruct (feed_all_sound _ _ _ _ sound_pending_nil Hfeed) as [Hcs _].
  cbn [rbind].
  destruct (handle_all Replace (flush q)) as [cs2|e] eqn:Hfl.
  2:{ apply handle_all_raise in Hfl. destruct Hfl as [Hm _]. discriminate. }
  assert (Hcs2 : Forall well_formed cs2).
  { apply (handle_all_sound (flush q)); [|exact Hfl].
    intros c Hc. now apply flush_no_char in Hc. }
  cbn [rbind andb negb]. rewrite andb_false_r. cbn [rbind].
  exists (TextIO.translate (cs ++ cs2)). split; [reflexivity|].
  apply translate_sound, Forall_app. now split.
Qed.

End ReplacementFacts.

Section ReplacedContent.

(** The text read from any bytes with replacement is valid UTF-8 free
    of carriage returns, and reading it again gives it back. *)
Lemma read_all_replace_valid bs content :
  TextIO.read_all Utf8.Replace bs = Return content ->
  Utf8.valid (list_byte_of_string content) = true
  /\ ~ In x0d (list_byte_of_string content)
  /\ TextIO.read_all Utf8.Replace (list_byte_of_string content) = Return content.
Proof.
  intros Hread. destruct (read_all_sound bs) as (cs & Hcs & Hall).
  rewrite Hread in Hcs. inversion Hcs; subst content. clear Hcs Hread.
  rewrite bytes_of_concat.
  assert (Hwf : Forall well_formed cs).
  { eapply Forall_impl; [|exact Hall]. now intros c [Hc _]. }
  assert (Hvalid : Utf8.valid (bytes_of cs) = true).
  { apply valid_iff. exists cs. now apply well_formed_concat. }
  assert (Hno : ~ In x0d (bytes_of cs)).
  { unfold bytes_of. intros Hin. apply in_concat in Hin.
    destruct Hin as (l & Hl & Hin). apply in_map_iff in Hl.
    destruct Hl as (c & <- & Hc). rewrite Forall_forall in Hall.
    destruct (Hall c Hc) as [Hcwf Hne]. now apply (well_formed_no_cr c). }
  split; [exact Hvalid|]. split; [exact Hno|].
  rewrite (read_all_verbatim Utf8.Replace _ Hvalid Hno). f_equal.
  symmetry. apply concat_of_bytes.
Qed.

End ReplacedContent.

(** X12.  The content of every plain section is the entry's file read
    with undecodable bytes replaced, and whatever the file holds that
    content is valid UTF-8 with line feeds as its only line ends (no
    carriage return is left); reading the content again the same way
    gives it back unchanged. *)
Theorem X12_plain_content_is_valid_text
        (w : World) (root : PurePath.t) (file : string) (f : FileData) (s : Section) :
  In s (entry_sections w (root, file, f)) ->
  sec_kind s = Plain ->
  TextIO.read_all Utf8.Replace (f_bytes f) = Return (sec_content s)
  /\ Utf8.valid (list_byte_of_string (sec_content s)) = true
  /\ ~ In x0d (list_byte_of_string (sec_content s))
  /\ TextIO.read_all Utf8.Replace (list_byte_of_string (sec_content s))
     = Return (sec_content s).
Proof.
  unfold entry_sections. rewrite process_file_gen.
  destruct (PurePath.relative_to _ _) as [r|]; [|contradiction].
  rewrite body_with_sections.
  assert (Htext : forall content,
             TextIO.read_all Utf8.Replace (f_bytes f) = Return content ->
             In s [plain_section (PurePath.child root file) (PurePath.str_rel r) f content] ->
             TextIO.read_all Utf8.Replace (f_bytes f) = Return (sec_content s)
             /\ Utf8.valid (list_byte_of_string (sec_content s)) = true
             /\ ~ In x0d (list_byte_of_string (sec_content s))
             /\ TextIO.read_all Utf8.Replace (list_byte_of_string (sec_content s))
                = Return (sec_content s)).
  { intros content Hread [<- | []]. cbn [sec_content plain_section].
    split; [exact Hread|]. now apply (read_all_replace_valid (f_bytes f)). }
  destruct (snd (convert_file w (PurePath.child root file)))
    as [[[c|] [|]]|e]; cbn [In]; try contradiction.
  - intros [<- | []] Hkind. discriminate.
  - destruct (allow_listed w _ || sniff_ok f); [|contradiction].
    destruct (f_open_error f); [contradiction|].
    destruct (TextIO.read_all Utf8.Replace (f_bytes f)) eqn:Hread; [|contradiction].
    intros Hin _. now apply (Htext a).
  - destruct (allow_listed w _ || sniff_ok f); [|contradiction].
    destruct (f_open_error f); [contradiction|].
    destruct (TextIO.read_all Utf8.Replace (f_bytes f)) eqn:Hread; [|contradiction].
    intros Hin _. now apply (Htext a).
Qed.

Lemma X12_plain_content_is_valid_text_witness :
  TextIO.read_all Utf8.Replace (f_bytes (binary_file [x63; x61; x66; xe9; x0d; x0a]%byte))
  = Return (string_of_list_byte [x63; x61; x66; xef; xbf; xbd; x0a]%byte)
  /\ Utf8.valid (list_byte_of_string
                   (string_of_list_byte [x63; x61; x66; xef; xbf; xbd; x0a]%byte))
     = true
  /\ ~ In x0d (list_byte_of_string
                 (string_of_list_byte [x63; x61; x66; xef; xbf; xbd; x0a]%byte))
  /\ TextIO.read_all Utf8.Replace
       (list_byte_of_string
          (string_of_list_byte [x63; x61; x66; xef; xbf; xbd; x0a]%byte))
     = Return (string_of_list_byte [x63; x61; x66; xef; xbf; xbd; x0a]%byte).
Proof.
  apply (X12_plain_content_is_valid_text
           plain_world (temp_dir plain_world) "cafe.txt"
           (binary_file [x63; x61; x66; xe9; x0d; x0a]%byte)
           (plain_section (PurePath.child (temp_dir plain_world) "cafe.txt") "cafe.txt"
                          (binary_file [x63; x61; x66; xe9; x0d; x0a]%byte)
                          (string_of_list_byte [x63; x61; x66; xef; xbf; xbd; x0a]%byte))).
  - left. reflexivity.
  - reflexivity.
Defined.

Section SuffixFacts.

Local Open Scope Z_scope.

Lemma rfind_lower c s : -1 <= PyStr.rfind c s.
Proof.
  induction s as [|a s IH]; cbn [PyStr.rfind]; [lia|].
  destruct (0 <=? PyStr.rfind c s) eqn:H; [apply Z.leb_le in H; lia|].
  destruct (Ascii.eqb a c); lia.
Qed.

(** The last occurrence, when the rest of the string has none. *)
Lemma rfind_last c pre : forall post,
  PyStr.rfind c post = -1 ->
  PyStr.rfind c (pre ++ String c post) = Z.of_nat (String.length pre).
Proof.
  induction pre as [|a pre IH]; intros post Hpost.
  - cbn [append PyStr.rfind String.length]. rewrite Hpost.
    cbn. now rewrite Ascii.eqb_refl.
  - cbn [append PyStr.rfind String.length]. rewrite (IH post Hpost).
    destruct (0 <=? Z.of_nat (String.length pre)) eqn:H; [lia|].
    apply Z.leb_gt in H. lia.
Qed.

(** A string with an occurrence splits at its last one. *)
Lemma rfind_split c s :
  0 <= PyStr.rfind c s ->
  exists pre post,
    s = (pre ++ String c post)%string
    /\ PyStr.rfind c post = -1
    /\ PyStr.rfind c s = Z.of_nat (String.length pre).
Proof.
  induction s as [|a s IH]; cbn [PyStr.rfind]; [lia|].
  destruct (0 <=? PyStr.rfind c s) eqn:Hr.
  - intros _. apply Z.leb_le in Hr. destruct (IH Hr) as (pre & post & -> & Hpost & Hlen).
    exists (String a pre), post. cbn [append String.length].
    split; [reflexivity|]. split; [exact Hpost|]. lia.
  - apply Z.leb_gt in Hr. pose proof (rfind_lower c s).
    destruct (Ascii.eqb_spec a c) as [->|_]; [|lia]. intros _.
    exists EmptyString, s. cbn. split; [reflexivity|]. split; [lia | reflexivity].
Qed.

Lemma substring_whole s : substring 0 (String.length s) s = s.
Proof. induction s as [|a s IH]; cbn; [reflexivity | now rewrite IH]. Qed.

Lemma slice_from_app pre s :
  PyStr.slice_from (Z.of_nat (String.length pre)) (pre ++ s) = s.
Proof.
  unfold PyStr.slice_from. rewrite Nat2Z.id, length_append.
  replace (String.length pre + String.length s - String.length pre)%nat
    with (String.length s) by lia.
  induction pre as [|a pre IH]; cbn [append String.length substring];
    [apply substring_whole | exact IH].
Qed.

End SuffixFacts.

(** X13.  The suffix the classification goes by is the part of the file
    name from its last dot, provided something stands before that dot
    and something after it: a name [stem.ext] with a non-empty stem and
    a non-empty, dot-free [ext] has the suffix [.ext], and a name has a
    suffix only in this way.  So a name without a dot, a name whose only
    dot is its first character and a name that ends in a dot have no
    suffix. *)
Theorem X13_suffix_shape (n : string) :
  (forall stem ext,
      n = (stem ++ "." ++ ext)%string ->
      stem <> EmptyString -> ext <> EmptyString ->
      PyStr.rfind "."%char ext = (-1)%Z ->
      PurePath.suffix_of_name n = ("." ++ ext)%string)
  /\ (PurePath.suffix_of_name n <> EmptyString ->
      exists stem ext,
        n = (stem ++ "." ++ ext)%string
        /\ stem <> EmptyString /\ ext <> EmptyString
        /\ PyStr.rfind "."%char ext = (-1)%Z
        /\ PurePath.suffix_of_name n = ("." ++ ext)%string).
Proof.
  unfold PurePath.suffix_of_name. split.
  - intros stem ext -> Hstem Hext Hdot.
    change ("." ++ ext)%string with (String "."%char ext).
    rewrite (rfind_last "."%char stem ext Hdot), slice_from_app.
    rewrite length_append. cbn [String.length].
    destruct stem as [|a stem]; [congruence|].
    destruct ext as [|b ext]; [congruence|]. cbn [String.length].
    replace ((0 <? Z.of_nat (S (String.length stem)))%Z
             && (Z.of_nat (S (String.length stem))
                 <? Z.of_nat (S (String.length stem) + S (S (String.length ext))) - 1)%Z)
      with true; [reflexivity|].
    symmetry. apply andb_true_intro. split; apply Z.ltb_lt; lia.
  - destruct ((0 <? PyStr.rfind "."%char n)%Z
              && (PyStr.rfind "."%char n <? Z.of_nat (String.length n) - 1)%Z) eqn:Hcond;
      [|congruence].
    intros _. apply andb_prop in Hcond. destruct Hcond as [Hpos Hend].
    apply Z.ltb_lt in Hpos. apply Z.ltb_lt in Hend.
    destruct (rfind_split "."%char n) as (pre & post & Hn & Hpost & Hlen); [lia|].
    exists pre, post. rewrite Hlen in *. subst n.
    rewrite slice_from_app. rewrite length_append in Hend. cbn [String.length] in Hend.
    repeat split; auto.
    + intros ->. cbn in Hpos. lia.
    + intros ->. cbn in Hend. lia.
Qed.

Lemma X13_suffix_shape_witness :
  PurePath.suffix_of_name "archive.tar.gz" = ".gz"
  /\ exists stem ext,
      "Makefile.am" = (stem ++ "." ++ ext)%string
      /\ stem <> EmptyString /\ ext <> EmptyString
      /\ PyStr.rfind "."%char ext = (-1)%Z
      /\ PurePath.suffix_of_name "Makefile.am" = ("." ++ ext)%string.
Proof.
  destruct (X13_suffix_shape "archive.tar.gz") as [Hmake _].
  destruct (X13_suffix_shape "Makefile.am") as [_ Hsplit].
  split.
  - apply (Hmake "archive.tar" "gz"); [reflexivity | discriminate | discriminate | reflexivity].
  - apply Hsplit. discriminate.
Defined.

Section FirstChunkFacts.

Import Utf8.

Lemma seq_len_bounds l : (2 <= seq_len l <= 4)%nat.
Proof. unfold seq_len. repeat destruct (_ <? _)%N; lia. Qed.

Lemma start_bounded b os q :
  start b = (os, q) ->
  bounded_pending q /\ (forall c, In (Emit c) os -> short_char c).
Proof.
  unfold start. destruct (Byte.to_N b <? 128)%N.
  - intros H. inversion H; subst. split; [exact I|].
    intros c [Hc | []]. inversion Hc; subst. unfold short_char.
    rewrite list_byte_of_string_of_list_byte. cbn. lia.
  - destruct ((194 <=? Byte.to_N b)%N && (Byte.to_N b <? 245)%N);
      intros H; inversion H; subst.
    + split; [|intros c []]. cbn. pose proof (seq_len_bounds b). lia.
    + split; [exact I|]. intros c [Hc | []]. discriminate.
Qed.

(** A surrogate begun is two bytes of a sequence of three. *)
Lemma surrogate_bounded p : surrogate_begun p = true -> bounded_pending p.
Proof.
  destruct p as [|l [|x [|y p]]]; cbn [surrogate_begun]; try discriminate.
  intros H. apply andb_prop in H. destruct H as [H _].
  apply andb_prop in H. destruct H as [H _]. apply N.eqb_eq in H.
  cbn [bounded_pending List.length]. unfold seq_len. rewrite H. cbn. lia.
Qed.

(** One step keeps the pending bytes few and yields short characters. *)
Lemma feed_bounded p b os q :
  bounded_pending p -> feed p b = (os, q) ->
  bounded_pending q /\ (forall c, In (Emit c) os -> short_char c).
Proof.
  intros Hp Hfeed. unfold feed in Hfeed.
  destruct p as [|l p']; [now apply (start_bounded b)|].
  destruct (surrogate_begun (l :: p')).
  { destruct (start b) as [os' q'] eqn:Hstart. inversion Hfeed; subst.
    destruct (start_bounded _ _ _ Hstart) as [Hq Hos]. split; [exact Hq|].
    intros c [Hc | [Hc | Hc]]; [discriminate | discriminate | now apply Hos]. }
  destruct (accepts (l :: p') b).
  - destruct (List.length ((l :: p') ++ [b]) =? seq_len l)%nat eqn:Hfull;
      inversion Hfeed; subst.
    + split; [exact I|]. intros c [Hc | []]. inversion Hc; subst.
      unfold short_char. rewrite list_byte_of_string_of_list_byte.
      apply Nat.eqb_eq in Hfull. pose proof (seq_len_bounds l).
      cbn [app] in *. lia.
    + split; [|intros c []]. apply Nat.eqb_neq in Hfull.
      cbn [bounded_pending app List.length] in *.
      rewrite length_app in Hfull |- *. cbn [List.length] in *. lia.
  - destruct (surrogate_begun ((l :: p') ++ [b])) eqn:Hkeep.
    + inversion Hfeed; subst. split; [|intros c []].
      now apply (surrogate_bounded ((l :: p') ++ [b])).
    + destruct (start b) as [os' q'] eqn:Hstart. inversion Hfeed; subst.
      destruct (start_bounded _ _ _ Hstart) as [Hq Hos]. split; [exact Hq|].
      intros c [Hc | Hc]; [discriminate | now apply Hos].
Qed.

Lemma handle_all_short os cs :
  (forall c, In (Emit c) os -> short_char c) ->
  handle_all Strict os = Return cs -> Forall short_char cs.
Proof.
  revert cs. induction os as [|o os IH]; intros cs Hos H.
  - inversion H. constructor.
  - cbn [handle_all] in H. destruct o as [c|]; [|discriminate].
    cbn [handle rbind] in H.
    destruct (handle_all Strict os) as [cs'|e]; [|discriminate]. cbn [rbind] in H.
    inversion H; subst. constructor; [apply Hos; now left|].
    apply IH; [|reflexivity]. intros c' Hc'. apply Hos. now right.
Qed.

Lemma feed_all_bounded bs : forall p cs q,
  bounded_pending p -> feed_all Strict p bs = Return (cs, q) ->
  Forall short_char cs /\ bounded_pending q.
Proof.
  induction bs as [|b bs IH]; intros p cs q Hp H.
  - inversion H; subst. split; [constructor | exact Hp].
  - cbn [feed_all] in H. destruct (feed p b) as [os p1] eqn:Hfeed.
    destruct (feed_bounded _ _ _ _ Hp Hfeed) as [Hp1 Hos].
    destruct (handle_all Strict os) as [c0|e] eqn:Hh; [|discriminate].
    cbn [rbind] in H.
    destruct (feed_all Strict p1 bs) as [[cs' q']|e] eqn:Hrest; [|discriminate].
    cbn [rbind] in H. inversion H; subst.
    destruct (IH _ _ _ Hp1 Hrest) as [Hcs' Hq].
    split; [|exact Hq]. apply Forall_app. split; [|exact Hcs'].
    now apply (handle_all_short os).
Qed.

Lemma bounded_pending_length p : bounded_pending p -> (List.length p <= 3)%nat.
Proof.
  destruct p as [|l p']; cbn [bounded_pending]; [cbn; lia|].
  pose proof (seq_len_bounds l). lia.
Qed.

Lemma bytes_of_cons c cs :
  List.length (bytes_of (c :: cs))
  = (List.length (list_byte_of_string c) + List.length (bytes_of cs))%nat.
Proof. unfold bytes_of. cbn [map List.concat]. apply length_app. Qed.

(** Line-end translation makes one character of at most four bytes. *)
Lemma translate_weight cs :
  Forall short_char cs ->
  (List.length (bytes_of cs) <= 4 * List.length (TextIO.translate cs))%nat.
Proof.
  induction cs as [| x | x y l IH1 IH2] using list_ind_pairs; intros H.
  - cbn. lia.
  - inversion H as [|? ? Hx _]; subst. rewrite bytes_of_cons.
    unfold short_char in Hx. cbn [TextIO.translate].
    destruct (String.eqb x TextIO.CR); cbn; lia.
  - inversion H as [|? ? Hx Hyl]; subst. inversion Hyl as [|? ? Hy Hl]; subst.
    specialize (IH1 Hl). specialize (IH2 Hyl).
    rewrite !bytes_of_cons in *. unfold short_char in *.
    cbn [TextIO.translate] in *.
    destruct (String.eqb_spec x TextIO.CR) as [->|_].
    + destruct (String.eqb_spec y TextIO.LF) as [->|_];
        cbn [List.length list_byte_of_string] in *; cbn in *; lia.
    + cbn [List.length] in *. lia.
Qed.

Lemma removelast_weight cs :
  Forall short_char cs ->
  Forall short_char (removelast cs)
  /\ (List.length (bytes_of cs) <= List.length (bytes_of (removelast cs)) + 4)%nat.
Proof.
  induction 1 as [|c cs Hc Hcs [IH1 IH2]]; [split; [constructor | cbn; lia]|].
  destruct cs as [|c' cs].
  - cbn [removelast]. split; [constructor|]. rewrite bytes_of_cons.
    unfold short_char in Hc. cbn. lia.
  - change (removelast (c :: c' :: cs)) with (c :: removelast (c' :: cs)).
    split; [now constructor|].
    rewrite (bytes_of_cons c (c' :: cs)), (bytes_of_cons c (removelast (c' :: cs))).
    lia.
Qed.

(** The first chunk, decoded, gives a character for every four bytes,
    but for a few bytes held back. *)
Lemma textio_decode_first_many bs cs p :
  feed_all Strict [] bs = Return (cs, p) ->
  exists cs' st',
    TextIO.decode Strict TextIO.initial bs false = Return (cs', st')
    /\ (List.length bs <= 4 * List.length cs' + 7)%nat.
Proof.
  intros H.
  destruct (feed_all_strict _ _ _ _ H) as (Hbytes & _ & _).
  destruct (feed_all_bounded bs [] cs p I H) as (Hshort & Hp).
  apply bounded_pending_length in Hp.
  apply (f_equal (@List.length byte)) in Hbytes. rewrite length_app in Hbytes.
  cbn [app] in Hbytes.
  unfold TextIO.decode, Utf8.decode.
  cbn [TextIO.pending TextIO.pendingcr TextIO.initial]. rewrite H.
  cbn [rbind andb negb]. rewrite andb_true_r.
  destruct (TextIO.ends_with_cr cs); eexists; eexists; (split; [reflexivity|]).
  - destruct (removelast_weight cs Hshort) as [Hshort' Hw].
    pose proof (translate_weight _ Hshort'). lia.
  - pose proof (translate_weight _ Hshort). lia.
Qed.

Lemma read_loop_enough mode size st result input :
  (size <= List.length result)%nat ->
  TextIO.read_loop mode size st result input = Return (firstn size result).
Proof.
  intros H. apply Nat.leb_le in H.
  destruct input; [rewrite read_loop_end | rewrite read_loop_chunk]; now rewrite H.
Qed.

(** Of a file of a chunk or more, the content inspection decodes the
    first chunk and nothing else. *)
Lemma read_long bs :
  (TextIO.CHUNK_SIZE <= List.length bs)%nat ->
  raises (TextIO.read Strict 1024 bs)
  = raises (Utf8.decode Strict [] (firstn TextIO.CHUNK_SIZE bs) false).
Proof.
  intros Hlen.
  assert (Hchunk : (4 * 1024 + 7 <= TextIO.CHUNK_SIZE)%nat).
  { apply Nat.leb_le. vm_compute. reflexivity. }
  destruct bs as [|b bs]; [cbn [List.length] in Hlen; lia|].
  unfold TextIO.read. destruct (stream_head b bs) as [rest ->].
  rewrite read_loop_chunk.
  replace (1024 <=? List.length (@nil uchar))%nat with false by reflexivity.
  assert (Hfirst : List.length (firstn TextIO.CHUNK_SIZE (b :: bs)) = TextIO.CHUNK_SIZE).
  { apply firstn_length_le. exact Hlen. }
  unfold Utf8.decode at 1.
  destruct (feed_all Strict [] (firstn TextIO.CHUNK_SIZE (b :: bs)))
    as [[cs p]|e] eqn:Hfeed.
  - destruct (textio_decode_first_many _ _ _ Hfeed) as (cs' & st' & -> & Hmany).
    cbn [app]. rewrite read_loop_enough by lia. reflexivity.
  - unfold TextIO.decode, Utf8.decode.
    cbn [TextIO.pending TextIO.initial]. rewrite Hfeed. reflexivity.
Qed.

(** The content inspection depends on the first chunk alone. *)
Lemma read_first_chunk_only bs :
  raises (TextIO.read Strict 1024 bs)
  = raises (TextIO.read Strict 1024 (firstn TextIO.CHUNK_SIZE bs)).
Proof.
  destruct (Nat.le_gt_cases (List.length bs) TextIO.CHUNK_SIZE) as [Hshort | Hlong].
  - now rewrite firstn_all2.
  - rewrite (read_long bs) by lia.
    rewrite (read_long (firstn TextIO.CHUNK_SIZE bs)).
    + now rewrite firstn_firstn, Nat.min_id.
    + rewrite firstn_length_le; lia.
Qed.

End FirstChunkFacts.

(** X15.  The content inspection of [is_text_file] looks at no byte
    beyond the first 8192: two files that both open and whose first 8192
    bytes are the same are classified alike under any name.  For a file
    of 8192 bytes or more that is not allow-listed, being text means
    that it opens and that its first 8192 bytes decode as UTF-8, a
    sequence cut by the end of the chunk being no error. *)
Theorem X15_only_first_chunk_inspected
        (w : World) (p : PurePath.t) (f g : FileData) :
  (can_open f = can_open g ->
   firstn TextIO.CHUNK_SIZE (f_bytes f) = firstn TextIO.CHUNK_SIZE (f_bytes g) ->
   is_text_file w p f = is_text_file w p g)
  /\ ((TextIO.CHUNK_SIZE <= List.length (f_bytes f))%nat ->
      is_text_file w p f
      = Return (allow_listed w p
                || (can_open f
                    && negb (raises (Utf8.decode Utf8.Strict []
                                       (firstn TextIO.CHUNK_SIZE (f_bytes f)) false))))).
Proof.
  assert (Hsniff : forall h, sniff_ok h
                   = can_open h
                     && negb (raises (TextIO.read Utf8.Strict 1024 (f_bytes h)))).
  { intros h. unfold sniff_ok, can_open, open_r. destruct (f_open_error h); reflexivity. }
  rewrite !is_text_file_eq, !Hsniff. split.
  - intros Hopen Hhead.
    rewrite (read_first_chunk_only (f_bytes f)), (read_first_chunk_only (f_bytes g)).
    now rewrite Hopen, Hhead.
  - intros Hlong. now rewrite (read_long _ Hlong).
Qed.

Lemma X15_only_first_chunk_inspected_witness :
  is_text_file blob_world ["tmp"; "tmpk3x9"; "blob.bin"] (binary_file chunk_then_bad)
  = is_text_file blob_world ["tmp"; "tmpk3x9"; "blob.bin"]
                 (binary_file (repeat "a"%byte TextIO.CHUNK_SIZE))
  /\ is_text_file blob_world ["tmp"; "tmpk3x9"; "blob.bin"]
                  (binary_file chunk_then_bad)
     = Return (allow_listed blob_world ["tmp"; "tmpk3x9"; "blob.bin"]
               || (can_open (binary_file chunk_then_bad)
                   && negb (raises (Utf8.decode Utf8.Strict []
                                      (firstn TextIO.CHUNK_SIZE
                                              (f_bytes (binary_file chunk_then_bad)))
                                      false)))).
Proof.
  destruct (X15_only_first_chunk_inspected
              blob_world ["tmp"; "tmpk3x9"; "blob.bin"] (binary_file chunk_then_bad)
              (binary_file (repeat "a"%byte TextIO.CHUNK_SIZE))) as [Hsame Hlong].
  split.
  - apply Hsame; [reflexivity | vm_compute; reflexivity].
  - apply Hlong. apply Nat.leb_le. vm_compute. reflexivity.
Defined.
